(** * Zoom G3X MIDI tooling: codec, patch decoder, command encoder, scanner

    A shallow embedding of [g3x_midi.py] and [scan_commands.py].

    Python integers are [Z]; a SysEx frame ([List[int]]) is a [list Z];
    Python [str] is [string].  Code that prints, sleeps or talks to a MIDI
    port runs in a small state-and-exception monad over a [World] that
    records every observable effect in order and supplies the batches of
    inbound messages that successive [iter_pending()] calls find. *)

From Stdlib Require Import ZArith List String Ascii Bool Lia.
From Stdlib Require DecimalString HexadecimalString.
Import ListNotations.

Local Open Scope string_scope.
Local Open Scope list_scope.
Local Open Scope Z_scope.

(** String concatenation, Python's [+] on [str]. *)
Notation "a ^^ b" := (String.append a b) (at level 60, right associativity).

(** ** Python values and formatting *)

Module Py.

(** [len(l)] as a Python integer. *)
Definition len {A} (l : list A) : Z := Z.of_nat (List.length l).

(** [l[a:b]] for non-negative [a], [b]; slicing clamps and never raises. *)
Definition slice {A} (l : list A) (a b : Z) : list A :=
  firstn (Z.to_nat b - Z.to_nat a) (skipn (Z.to_nat a) l).

(** [range(a, b)]. *)
Definition range (a b : Z) : list Z :=
  map (fun k => a + Z.of_nat k) (seq 0 (Z.to_nat (b - a))).

(** [l == m] on lists of integers. *)
Fixpoint list_eqb (l m : list Z) : bool :=
  match l, m with
  | [], [] => true
  | x :: l', y :: m' => (x =? y) && list_eqb l' m'
  | _, _ => false
  end.

(** [x in l] on lists of integers. *)
Definition mem (x : Z) (l : list Z) : bool := existsb (Z.eqb x) l.

(** [str(n)], also what [f"{n}"] renders. *)
Definition str (n : Z) : string :=
  DecimalString.NilZero.string_of_int (Z.to_int n).

Definition upper_hex (c : ascii) : ascii :=
  let n := nat_of_ascii c in
  if ((97 <=? n) && (n <=? 102))%nat then ascii_of_nat (n - 32) else c.

Fixpoint map_string (f : ascii -> ascii) (s : string) : string :=
  match s with
  | EmptyString => EmptyString
  | String c s' => String (f c) (map_string f s')
  end.

(** Upper-case hexadecimal digits of a non-negative integer. *)
Definition hex_digits (n : Z) : string :=
  map_string upper_hex
    (HexadecimalString.NilZero.string_of_int (Z.to_hex_int n)).

(** [f"{n:02X}"]: sign, then the digits zero-padded so that the whole
    field is at least two characters wide. *)
Definition fmt_02X (n : Z) : string :=
  if n <? 0 then "-" ^^ hex_digits (- n)
  else if n <? 16 then "0" ^^ hex_digits n
  else hex_digits n.

(** [sep.join(parts)]. *)
Definition join (sep : string) (parts : list string) : string :=
  String.concat sep parts.

(** [repr] of a list of integers, as [f"{l}"] renders it. *)
Definition repr_ints (l : list Z) : string :=
  "[" ^^ join ", " (map str l) ^^ "]".

Definition squote : ascii := ascii_of_nat 39.
Definition dquote : ascii := ascii_of_nat 34.
Definition bslash : ascii := ascii_of_nat 92.

Fixpoint contains (c : ascii) (s : string) : bool :=
  match s with
  | EmptyString => false
  | String d s' => Ascii.eqb c d || contains c s'
  end.

Fixpoint escape (q : ascii) (s : string) : string :=
  match s with
  | EmptyString => EmptyString
  | String c s' =>
      if Ascii.eqb c q || Ascii.eqb c bslash
      then String bslash (String c (escape q s'))
      else String c (escape q s')
  end.

(** [repr] of a string of printable ASCII characters: single quotes unless
    the text has a single quote and no double quote. *)
Definition repr_str (s : string) : string :=
  let q := if contains squote s && negb (contains dquote s)
           then dquote else squote in
  String q (escape q s ^^ String q EmptyString).

Definition repr_strs (l : list string) : string :=
  "[" ^^ join ", " (map repr_str l) ^^ "]".

(** [c * n] for a one-character string. *)
Fixpoint repeat_char (c : ascii) (n : nat) : string :=
  match n with
  | O => EmptyString
  | S n' => String c (repeat_char c n')
  end.

(** [chr(b)] for [b] in the ASCII range. *)
Definition chr (b : Z) : ascii := ascii_of_nat (Z.to_nat b).

Definition is_space (c : ascii) : bool :=
  let n := nat_of_ascii c in
  (((9 <=? n) && (n <=? 13)) || ((28 <=? n) && (n <=? 32)))%nat.

Fixpoint lstrip (s : string) : string :=
  match s with
  | EmptyString => EmptyString
  | String c s' => if is_space c then lstrip s' else s
  end.

Fixpoint rstrip (s : string) : string :=
  match s with
  | EmptyString => EmptyString
  | String c s' =>
      match rstrip s' with
      | EmptyString => if is_space c then EmptyString else String c EmptyString
      | r => String c r
      end
  end.

(** [s.strip()]. *)
Definition strip (s : string) : string := rstrip (lstrip s).

Fixpoint string_of_chars (l : list ascii) : string :=
  match l with
  | [] => EmptyString
  | c :: l' => String c (string_of_chars l')
  end.

End Py.

(** ** Effects *)

Inductive exn : Type :=
| ValueError
| IndexError
| RangeError.

Inductive Res (A : Type) : Type :=
| Ok (a : A)
| Raise (e : exn).
Arguments Ok {A} a.
Arguments Raise {A} e.

(** A message as [mido] hands it over: only the [type] and, for SysEx and
    program change, the payload matter to this code. *)
Inductive midi_msg : Type :=
| Sysex (data : list Z)
| ProgramChange (program : Z)
| OtherMsg (type : string).

(** What the outside can observe, in order.  Sleeps are in milliseconds. *)
Inductive event : Type :=
| EPrint (line : string)
| ESend (msg : midi_msg)
| ESleep (ms : Z)
| EPending (batch : list midi_msg)
| EWrite (text : string)
| EFlush.

Record World : Type := mkWorld {
  trace : list event;
  inbox : list (list midi_msg)
}.

Definition M (A : Type) : Type := World -> Res A * World.

Definition ret {A} (a : A) : M A := fun w => (Ok a, w).

Definition bind {A B} (m : M A) (k : A -> M B) : M B :=
  fun w =>
    match m w with
    | (Ok a, w') => k a w'
    | (Raise e, w') => (Raise e, w')
    end.

Definition raise {A} (e : exn) : M A := fun w => (Raise e, w).

Declare Scope py_scope.
Delimit Scope py_scope with py.
Notation "x <- m ;; k" := (bind m (fun x => k))
  (at level 61, m at next level, right associativity) : py_scope.
Notation "m ;; k" := (bind m (fun _ => k))
  (at level 61, right associativity) : py_scope.
Local Open Scope py_scope.

Definition emit (e : event) : M unit :=
  fun w => (Ok tt, mkWorld (trace w ++ [e]) (inbox w)).

Definition print (line : string) : M unit := emit (EPrint line).
Definition port_send (msg : midi_msg) : M unit := emit (ESend msg).
Definition sleep_ms (ms : Z) : M unit := emit (ESleep ms).
Definition log_write (text : string) : M unit := emit (EWrite text).
Definition log_flush : M unit := emit EFlush.

(** [input_port.iter_pending()]: whatever has arrived by now. *)
Definition iter_pending : M (list midi_msg) :=
  fun w =>
    match inbox w with
    | [] => (Ok [], mkWorld (trace w ++ [EPending []]) [])
    | batch :: rest => (Ok batch, mkWorld (trace w ++ [EPending batch]) rest)
    end.

(** [mido.Message('sysex', data=...)] and
    [mido.Message('program_change', program=...)]: the constructor takes
    data bytes in 0..127 only and raises [ValueError] for any other
    integer. *)
Definition data_byte (b : Z) : bool := (0 <=? b) && (b <=? 127).

Definition mido_sysex (data : list Z) : M midi_msg :=
  if forallb data_byte data then ret (Sysex data) else raise ValueError.

Definition mido_program_change (program : Z) : M midi_msg :=
  if data_byte program then ret (ProgramChange program)
  else raise ValueError.

(** [time.sleep(t)], [t] in milliseconds: a negative length raises
    [ValueError]. *)
Definition time_sleep (ms : Z) : M unit :=
  if ms <? 0 then raise ValueError else sleep_ms ms.

(** [for x in l: body], threading the loop's local variables [acc]. *)
Fixpoint for_each {A S} (l : list A) (body : A -> S -> M S) (acc : S) : M S :=
  match l with
  | [] => ret acc
  | x :: l' => acc' <- body x acc ;; for_each l' body acc'
  end.

(** [l[i]]: negative indices count from the end, anything else out of range
    raises. *)
Definition getitem (l : list Z) (i : Z) : M Z :=
  if (0 <=? i) && (i <? Py.len l) then ret (nth (Z.to_nat i) l 0)
  else if (- Py.len l <=? i) && (i <? 0)
       then ret (nth (Z.to_nat (Py.len l + i)) l 0)
       else raise IndexError.

(** [bytes(data)]: every element has to be in [range(0, 256)]. *)
Definition bytes (data : list Z) : M (list Z) :=
  if forallb (fun b => (0 <=? b) && (b <? 256)) data then ret data
  else raise ValueError.

(** ** g3x_midi.py *)

Definition SYSEX_PREFIX : list Z := [0x52; 0x00; 0x59].

Definition CMD_GET_PATCH_DATA : Z := 0x29.
Definition CMD_MODIFY_EFFECT : Z := 0x31.
Definition CMD_GET_PROGRAM_NUM : Z := 0x33.
Definition CMD_ENTER_EDIT : Z := 0x50.
Definition CMD_EXIT_EDIT : Z := 0x51.

Definition SUBCMD_ON_OFF : Z := 0x00.
Definition SUBCMD_EFFECT_TYPE : Z := 0x01.
Definition SUBCMD_KNOB_BASE : Z := 0x02.

Definition PATCH_DATA_HEADER_SIZE : Z := 5.
Definition EFFECT_SLOT_SIZE : Z := 14.
Definition NUM_EFFECT_SLOTS : Z := 6.
Definition PATCH_NAME_OFFSET : Z := 96.
Definition PATCH_NAME_LENGTH : Z := 11.

Definition decode_14bit (low high : Z) : Z :=
  Z.lor (Z.land low 0x7F) (Z.shiftl (Z.land high 0x7F) 7).

(** Modelled from the spec: [encode_14bit] is not defined in the sources;
    the design text gives it as failing with a range error when [v] is not
    in 0..16383 and otherwise returning
    [(low = v & 0x7F, high = (v >> 7) & 0x7F)]. *)
Definition encode_14bit (v : Z) : Res (Z * Z) :=
  if (v <? 0) || (16383 <? v) then Raise RangeError
  else Ok (Z.land v 0x7F, Z.land (Z.shiftr v 7) 0x7F).

(** [l[i] = v] on a list. *)
Definition setitem (l : list Z) (i : Z) (v : Z) : M (list Z) :=
  if (0 <=? i) && (i <? Py.len l)
  then ret (firstn (Z.to_nat i) l ++ v :: skipn (S (Z.to_nat i)) l)
  else if (- Py.len l <=? i) && (i <? 0)
       then let k := Z.to_nat (Py.len l + i) in
            ret (firstn k l ++ v :: skipn (S k) l)
       else raise IndexError.

Record EffectSlot : Type := mkEffectSlot {
  slot_num : Z;
  effect_id : Z;
  enabled : bool;
  knob_values : list Z;
  raw_bytes : list Z
}.

Record PatchData : Type := mkPatchData {
  raw_data : list Z;
  patch_name : string;
  effect_slots : list EffectSlot;
  metadata : list Z
}.

(** [EffectSlot(slot_num=n)] with the dataclass defaults. *)
Definition new_EffectSlot (n : Z) : EffectSlot :=
  mkEffectSlot n 0 false [0; 0; 0; 0] [].

(** [PatchData(raw_data=raw)] with the dataclass defaults. *)
Definition new_PatchData (raw : list Z) : PatchData :=
  mkPatchData raw "" [] [].

Definition set_effect_id (s : EffectSlot) (v : Z) : EffectSlot :=
  mkEffectSlot (slot_num s) v (enabled s) (knob_values s) (raw_bytes s).
Definition set_enabled (s : EffectSlot) (v : bool) : EffectSlot :=
  mkEffectSlot (slot_num s) (effect_id s) v (knob_values s) (raw_bytes s).
Definition set_knob_values (s : EffectSlot) (v : list Z) : EffectSlot :=
  mkEffectSlot (slot_num s) (effect_id s) (enabled s) v (raw_bytes s).
Definition set_raw_bytes (s : EffectSlot) (v : list Z) : EffectSlot :=
  mkEffectSlot (slot_num s) (effect_id s) (enabled s) (knob_values s) v.

Definition set_patch_name (p : PatchData) (v : string) : PatchData :=
  mkPatchData (raw_data p) v (effect_slots p) (metadata p).
Definition set_metadata (p : PatchData) (v : list Z) : PatchData :=
  mkPatchData (raw_data p) (patch_name p) (effect_slots p) v.
Definition append_slot (p : PatchData) (s : EffectSlot) : PatchData :=
  mkPatchData (raw_data p) (patch_name p) (effect_slots p ++ [s]) (metadata p).

(** The name loop: stop at the first zero byte, keep printable ASCII. *)
Fixpoint name_loop (name_bytes : list Z) (name_chars : list ascii)
  : list ascii :=
  match name_bytes with
  | [] => name_chars
  | b :: rest =>
      if b =? 0 then name_chars
      else if (32 <=? b) && (b <? 127)
           then name_loop rest (name_chars ++ [Py.chr b])
           else name_loop rest name_chars
  end.

Definition knob2_positions : list Z := [8; 22; 35; 50; 64; 78].

(** Body of the [for slot_num in range(NUM_EFFECT_SLOTS)] loop of
    [parse_patch_data]; [raw] is the local [raw_bytes]. *)
Definition parse_slot (data raw : list Z) (slot_num : Z) (patch : PatchData)
  : M PatchData :=
  let slot := new_EffectSlot slot_num in
  let slot_start := 5 + slot_num * EFFECT_SLOT_SIZE in
  let slot_end := slot_start + EFFECT_SLOT_SIZE in
  slot <-
    (if slot_end <=? Py.len data then
       let slot := set_raw_bytes slot (Py.slice raw slot_start slot_end) in
       slot <-
         (if slot_start + 2 <=? Py.len data then
            b <- getitem data slot_start ;;
            ret (set_effect_id slot (Z.land b 0x7F))
          else ret slot) ;;
       (if slot_start + 1 <=? Py.len data then
          b <- getitem data (slot_start + 1) ;;
          ret (set_enabled slot (negb (Z.land b 0x01 =? 0)))
        else ret slot)
     else ret slot) ;;
  k2_pos <- getitem knob2_positions slot_num ;;
  slot <-
    (if k2_pos + 1 <? Py.len data then
       if Py.mem slot_num [1; 2] then
         lo <- getitem data k2_pos ;;
         hi <- getitem data (k2_pos + 1) ;;
         knobs <- setitem (knob_values slot) 1 (decode_14bit lo hi) ;;
         ret (set_knob_values slot knobs)
       else
         b <- getitem data k2_pos ;;
         knobs <- setitem (knob_values slot) 1 b ;;
         ret (set_knob_values slot knobs)
     else ret slot) ;;
  ret (append_slot patch slot).

Definition parse_patch_data (data : list Z) : M (option PatchData) :=
  if match data with [] => true | _ => false end || (Py.len data <? 100)
  then
    print ("Patch data too short: "
           ^^ Py.str (match data with [] => 0 | _ => Py.len data end)
           ^^ " bytes") ;;
    ret None
  else if negb (Py.list_eqb (Py.slice data 0 3) SYSEX_PREFIX) then
    print ("Invalid header: expected " ^^ Py.repr_ints SYSEX_PREFIX
           ^^ ", got " ^^ Py.repr_ints (Py.slice data 0 3)) ;;
    ret None
  else
    tag <- getitem data 3 ;;
    if negb (tag =? 0x28) then
      b <- getitem data 3 ;;
      print ("Unexpected command byte: 0x" ^^ Py.fmt_02X b) ;;
      ret None
    else
      raw <- bytes data ;;
      let patch := new_PatchData raw in
      let patch := set_metadata patch (Py.slice raw 4 8) in
      let patch :=
        if PATCH_NAME_OFFSET + PATCH_NAME_LENGTH <? Py.len data then
          let name_bytes :=
            Py.slice data PATCH_NAME_OFFSET
                     (PATCH_NAME_OFFSET + PATCH_NAME_LENGTH) in
          let name_chars := name_loop name_bytes [] in
          set_patch_name patch (Py.strip (Py.string_of_chars name_chars))
        else patch in
      patch <- for_each (Py.range 0 NUM_EFFECT_SLOTS)
                        (parse_slot data raw) patch ;;
      ret (Some patch).

(** Known effect names, [EFFECTS.get(effect_id, default)]. *)
Definition EFFECTS_get (effect_id : Z) (default : string) : string :=
  if effect_id =? 0x00 then "None"
  else if effect_id =? 0x01 then "The Vibe"
  else if effect_id =? 0x02 then "Z-Organ"
  else if effect_id =? 0x03 then "Slicer"
  else default.

(** The fields of a [ZoomG3X] object; an open port is known by its name. *)
Record ZoomG3X : Type := mkZoomG3X {
  port_name : option string;
  port : option string;
  input_port : option string;
  in_edit_mode : bool
}.

Definition format_hex (data : list Z) : string :=
  Py.join " " (map Py.fmt_02X data).

(** [ZoomG3X._send_sysex]. *)
Definition _send_sysex (self : ZoomG3X) (data : list Z)
  : M (option (list Z)) :=
  match port self with
  | None => print "Not connected!" ;; ret None
  | Some _ =>
      let full_msg := SYSEX_PREFIX ++ data in
      msg <- mido_sysex full_msg ;;
      print ("TX: F0 " ^^ format_hex full_msg ^^ " F7") ;;
      port_send msg ;;
      match input_port self with
      | Some _ =>
          time_sleep 100 ;;
          pending <- iter_pending ;;
          response <-
            for_each pending
              (fun msg response =>
                 match msg with
                 | Sysex d =>
                     print ("RX: F0 " ^^ format_hex d ^^ " F7") ;;
                     ret d
                 | _ => ret response
                 end) [] ;;
          ret (match response with [] => None | _ => Some response end)
      | None => ret None
      end
  end.

Definition invalid_slot (slot : Z) : string :=
  "Invalid slot: " ^^ Py.str slot ^^ " (must be 0-5)".

(** [ZoomG3X.set_effect_enabled]. *)
Definition set_effect_enabled (self : ZoomG3X) (slot : Z) (on : bool)
  : M unit :=
  if (slot <? 0) || (5 <? slot) then print (invalid_slot slot)
  else
    let value := if on then 0x01 else 0x00 in
    _send_sysex self [CMD_MODIFY_EFFECT; slot; SUBCMD_ON_OFF; value; 0x00] ;;
    print ("Slot " ^^ Py.str slot ^^ ": " ^^ (if on then "ON" else "OFF")).

(** [ZoomG3X.set_effect_type]. *)
Definition set_effect_type (self : ZoomG3X) (slot : Z) (effect : Z)
  : M unit :=
  if (slot <? 0) || (5 <? slot) then print (invalid_slot slot)
  else
    _send_sysex self
      [CMD_MODIFY_EFFECT; slot; SUBCMD_EFFECT_TYPE; effect; 0x00] ;;
    let effect_name :=
      EFFECTS_get effect ("Unknown (" ^^ Py.str effect ^^ ")") in
    print ("Slot " ^^ Py.str slot ^^ ": Changed to " ^^ effect_name).

(** [ZoomG3X.set_knob_value]. *)
Definition set_knob_value (self : ZoomG3X) (slot knob value : Z) : M unit :=
  if (slot <? 0) || (5 <? slot) then print (invalid_slot slot)
  else
    let knob_cmd := knob + 0x01 in
    _send_sysex self [CMD_MODIFY_EFFECT; slot; 0x00; knob_cmd; value; 0x00] ;;
    print ("Slot " ^^ Py.str slot ^^ ", Knob " ^^ Py.str knob
           ^^ ": Set to " ^^ Py.str value).

(** ** scan_commands.py *)

Module Scan.

Definition nl : string := String (ascii_of_nat 10) EmptyString.

(** [send_sysex(output_port, input_port, data, timeout)]; the timeout is in
    milliseconds (the default 0.15 s is 150).  The message is built, and
    so checked, before it is sent. *)
Definition send_sysex (data : list Z) (timeout : Z) : M (list (list Z)) :=
  let full_msg := SYSEX_PREFIX ++ data in
  msg <- mido_sysex full_msg ;;
  port_send msg ;;
  time_sleep timeout ;;
  pending <- iter_pending ;;
  for_each pending
    (fun msg responses =>
       match msg with
       | Sysex d => ret (responses ++ [d])
       | _ => ret responses
       end) [].

(** The [for i in range(len(response) - 5)] loop. *)
Definition flag_notes (response : list Z) (notes : list string)
  : list string :=
  fold_left
    (fun notes i =>
       let window := Py.slice response i (i + 6) in
       if forallb (fun b => Py.mem b [0; 1]) window
       then notes ++ ["possible flags @" ^^ Py.str i ^^ ": "
                      ^^ Py.repr_ints window]
       else notes)
    (Py.range 0 (Py.len response - 5)) notes.

(** [[(i, chr(b)) for i, b in enumerate(response) if 32 <= b < 127]]. *)
Definition ascii_chars (response : list Z) : list (Z * ascii) :=
  map (fun ib => (fst ib, Py.chr (snd ib)))
      (filter (fun ib => (32 <=? snd ib) && (snd ib <? 127))
              (combine (Py.range 0 (Py.len response)) response)).

(** The [for i, c in ascii_chars] loop over the locals [runs],
    [current_run] and [last_i]. *)
Fixpoint run_loop (chars : list (Z * ascii)) (runs : list string)
    (current_run : list ascii) (last_i : Z)
  : list string * list ascii :=
  match chars with
  | [] => (runs, current_run)
  | (i, c) :: rest =>
      if i =? last_i + 1 then run_loop rest runs (current_run ++ [c]) i
      else
        let runs :=
          if 4 <=? Py.len current_run
          then runs ++ [Py.string_of_chars current_run] else runs in
        run_loop rest runs [c] i
  end.

(** The list [runs] as it stands when the note is written. *)
Definition ascii_runs (response : list Z) : list string :=
  let '(runs, current_run) := run_loop (ascii_chars response) [] [] (-2) in
  if 4 <=? Py.len current_run
  then runs ++ [Py.string_of_chars current_run] else runs.

Definition analyze_response (cmd : Z) (response : list Z) : list string :=
  let notes : list string := [] in
  match response with
  | [] => notes
  | _ =>
      let notes :=
        if 3 <? Py.len response then
          let resp_cmd := nth 3 response 0 in
          if resp_cmd =? cmd - 1 then
            notes ++ ["resp_cmd=0x" ^^ Py.fmt_02X resp_cmd ^^ " (req-1)"]
          else if resp_cmd =? cmd then
            notes ++ ["resp_cmd=0x" ^^ Py.fmt_02X resp_cmd ^^ " (echo)"]
          else notes ++ ["resp_cmd=0x" ^^ Py.fmt_02X resp_cmd]
        else notes in
      let notes := flag_notes response notes in
      if 4 <=? Py.len (ascii_chars response) then
        let runs := ascii_runs response in
        match runs with
        | [] => notes
        | _ => notes ++ ["ASCII: " ^^ Py.repr_strs runs]
        end
      else notes
  end.

(** One [result] dictionary of [scan_commands]. *)
Record result : Type := mkResult {
  cmd : Z;
  tx : list Z;
  responses : list (list Z)
}.

Definition rule70 : string := Py.repeat_char "=" 70.

Definition notes_suffix (lead : string) (notes : list string) : string :=
  match notes with
  | [] => ""
  | _ => lead ^^ Py.join "; " notes
  end.

(** Body of the [for cmd in range(start, end + 1)] loop; inside the
    [if responses:] branch [first] is [responses[0]]. *)
Definition scan_one (c : Z) (results : list result) : M (list result) :=
  responses <- send_sysex [c] 150 ;;
  let result := mkResult c (SYSEX_PREFIX ++ [c]) responses in
  let results := results ++ [result] in
  log_write (nl ^^ rule70 ^^ nl) ;;
  log_write ("Command 0x" ^^ Py.fmt_02X c ^^ " (" ^^ Py.str c ^^ ")" ^^ nl) ;;
  log_write ("TX: F0 " ^^ format_hex (tx result) ^^ " F7" ^^ nl) ;;
  match responses with
  | first :: _ =>
      for_each (combine (Py.range 0 (Py.len responses)) responses)
        (fun ir (_ : unit) =>
           let '(i, resp) := ir in
           log_write ("RX[" ^^ Py.str i ^^ "]: F0 " ^^ format_hex resp
                      ^^ " F7" ^^ nl) ;;
           log_write ("       Length: " ^^ Py.str (Py.len resp)
                      ^^ " bytes" ^^ nl) ;;
           let notes := analyze_response c resp in
           match notes with
           | [] => ret tt
           | _ => log_write ("       Notes: " ^^ Py.join "; " notes ^^ nl)
           end) tt ;;
      let resp_len := Py.len first in
      let notes := analyze_response c first in
      let note_str := notes_suffix " | " notes in
      print ("0x" ^^ Py.fmt_02X c ^^ ": " ^^ Py.str (Py.len responses)
             ^^ " response(s), " ^^ Py.str resp_len ^^ " bytes" ^^ note_str)
  | [] =>
      log_write ("RX: (no response)" ^^ nl) ;;
      print ("0x" ^^ Py.fmt_02X c ^^ ": no response")
  end ;;
  log_flush ;;
  ret results.

Definition scan_commands (start stop : Z) : M (list result) :=
  print (nl ^^ "Scanning commands 0x" ^^ Py.fmt_02X start ^^ " to 0x"
         ^^ Py.fmt_02X stop ^^ "...") ;;
  print rule70 ;;
  for_each (Py.range start (stop + 1)) scan_one [].

(** [[r for r in results if r['responses']]] in [main]. *)
Definition responding (results : list result) : list result :=
  filter (fun r => match responses r with [] => false | _ => true end)
         results.

End Scan.

(** ** Closed forms used in the statements *)

(** Offsets are plain positions here: [data @ k] is the byte at offset [k]
    (zero past the end). *)
Definition byte_at (data : list Z) (k : Z) : Z := nth (Z.to_nat k) data 0.

(** Every element is a byte, which is what [bytes(data)] insists on. *)
Definition all_bytes (data : list Z) : Prop :=
  Forall (fun b => 0 <= b < 256) data.

(** The three checks of [parse_patch_data] as predicates on a frame. *)
Definition long_enough (data : list Z) : Prop := 100 <= Py.len data.
Definition prefix_ok (data : list Z) : Prop :=
  Py.slice data 0 3 = SYSEX_PREFIX.
Definition tag_ok (data : list Z) : Prop := byte_at data 3 = 0x28.

(** Which check a diagnostic line reports, told from its leading text. *)
Inductive check : Type := TooShort | BadPrefix | BadTag.

Definition diagnosed (line : string) : option check :=
  if String.prefix "Patch data too short: " line then Some TooShort
  else if String.prefix "Invalid header: " line then Some BadPrefix
  else if String.prefix "Unexpected command byte: " line then Some BadTag
  else None.

(** The second knob of slot [i] as the offset table gives it. *)
Definition knob2_of (data : list Z) (i : Z) : Z :=
  let k := byte_at knob2_positions i in
  if (i =? 1) || (i =? 2)
  then decode_14bit (byte_at data k) (byte_at data (k + 1))
  else byte_at data k.

(** Slot [i] of a frame whose window and knob offset are both in range. *)
Definition full_slot (data : list Z) (i : Z) : EffectSlot :=
  mkEffectSlot i
    (Z.land (byte_at data (5 + 14 * i)) 0x7F)
    (Z.odd (byte_at data (5 + 14 * i + 1)))
    [0; knob2_of data i; 0; 0]
    (Py.slice data (5 + 14 * i) (5 + 14 * i + 14)).

(** The name field of a frame that is long enough to carry one. *)
Definition name_of (data : list Z) : string :=
  if 107 <? Py.len data
  then Py.strip (Py.string_of_chars (name_loop (Py.slice data 96 107) []))
  else "".

(** What [parse_patch_data] builds from a frame that passes its checks. *)
Definition full_patch (data : list Z) : PatchData :=
  mkPatchData data (name_of data)
    (map (full_slot data) [0; 1; 2; 3; 4; 5])
    (Py.slice data 4 8).

(** The world after one more line on standard output. *)
Definition printed (w : World) (line : string) : World :=
  mkWorld (trace w ++ [EPrint line]) (inbox w).

(** The messages handed to the output port so far, oldest first. *)
Definition sent (w : World) : list midi_msg :=
  flat_map (fun e => match e with ESend m => [m] | _ => [] end) (trace w).

(** The part of the trace that touches the MIDI ports. *)
Definition transport_io (w : World) : list event :=
  filter (fun e => match e with
                   | ESend _ | ESleep _ | EPending _ => true
                   | _ => false
                   end) (trace w).

(** An object with an open output port and, optionally, an input port. *)
Definition connected (self : ZoomG3X) : Prop := port self <> None.

(** A batch of inbound messages without any SysEx message in it. *)
Definition silent (batch : list midi_msg) : Prop :=
  forall d, ~ In (Sysex d) batch.

(** The events of one unanswered probe of command [c]. *)
Definition unanswered (c : Z) (batch : list midi_msg) : list event :=
  [ ESend (Sysex (SYSEX_PREFIX ++ [c]));
    ESleep 150;
    EPending batch;
    EWrite (Scan.nl ^^ Scan.rule70 ^^ Scan.nl);
    EWrite ("Command 0x" ^^ Py.fmt_02X c ^^ " (" ^^ Py.str c ^^ ")" ^^ Scan.nl);
    EWrite ("TX: F0 " ^^ format_hex (SYSEX_PREFIX ++ [c]) ^^ " F7" ^^ Scan.nl);
    EWrite ("RX: (no response)" ^^ Scan.nl);
    EPrint ("0x" ^^ Py.fmt_02X c ^^ ": no response");
    EFlush ].

(** What [scan_commands] records for a command nobody answered. *)
Definition no_answer (c : Z) : Scan.result :=
  Scan.mkResult c (SYSEX_PREFIX ++ [c]) [].

(** The classifier's text heuristic as the design text words it: split the
    frame into maximal runs of printable bytes, keep those of length four
    or more. *)
Definition printable (b : Z) : bool := (32 <=? b) && (b <? 127).

Fixpoint maximal_runs (response : list Z) (current : list ascii)
  : list (list ascii) :=
  match response with
  | [] => [current]
  | b :: rest =>
      if printable b then maximal_runs rest (current ++ [Py.chr b])
      else current :: maximal_runs rest []
  end.

Definition long_ones (runs : list (list ascii)) : list string :=
  map Py.string_of_chars (filter (fun r => 4 <=? Py.len r) runs).

Definition text_runs (response : list Z) : list string :=
  long_ones (maximal_runs response []).

(** The pairs [ascii_chars] collects, for a frame that starts at offset
    [k]. *)
Definition chars_from (k : Z) (response : list Z) : list (Z * ascii) :=
  map (fun ib => (fst ib, Py.chr (snd ib)))
      (filter (fun ib => (32 <=? snd ib) && (snd ib <? 127))
              (combine (Py.range k (k + Py.len response)) response)).

(** The end of the run loop: the pending run is kept if long enough. *)
Definition finish (state : list string * list ascii) : list string :=
  let '(runs, current_run) := state in
  if 4 <=? Py.len current_run
  then runs ++ [Py.string_of_chars current_run] else runs.

Definition is_ascii_note (note : string) : bool :=
  String.prefix "ASCII: " note.

(** A stretch of bytes that cannot lengthen a run next to it. *)
Definition ends_unprintable (l : list Z) : bool :=
  match rev l with [] => true | x :: _ => negb (printable x) end.
Definition starts_unprintable (l : list Z) : bool :=
  match l with [] => true | x :: _ => negb (printable x) end.

(** ** Sample inputs *)

(** A 108-byte patch dump: prefix, tag 0x28, then the bytes 4, 5, ..., 107. *)
Definition sample_dump : list Z :=
  SYSEX_PREFIX ++ [0x28] ++ map Z.of_nat (seq 4 104).

(** The same frame with a foreign manufacturer byte, and with tag 0x29. *)
Definition sample_foreign : list Z := 0x53 :: tl sample_dump.
Definition sample_request : list Z :=
  SYSEX_PREFIX ++ [0x29] ++ map Z.of_nat (seq 4 104).

Definition idle : World := mkWorld [] [].

(** A world in which only timing-clock messages ever arrive. *)
Definition quiet : World :=
  mkWorld [] [[]; [OtherMsg "clock"]; []; [OtherMsg "clock"; OtherMsg "clock"]].

Definition plugged : ZoomG3X :=
  mkZoomG3X (Some "ZOOM G Series") (Some "ZOOM G Series")
            (Some "ZOOM G Series") true.

(** ** g3x_midi.py: the remaining methods *)

(** [s.ljust(n)] and [s.rjust(n)], the paddings behind [{s:20s}] and
    [{n:4d}]. *)
Definition ljust (s : string) (n : nat) : string :=
  s ^^ Py.repeat_char " " (n - String.length s).
Definition rjust (s : string) (n : nat) : string :=
  Py.repeat_char " " (n - String.length s) ^^ s.

(** [EffectSlot.effect_name]. *)
Definition effect_name (slot : EffectSlot) : string :=
  EFFECTS_get (effect_id slot)
              ("Unknown (0x" ^^ Py.fmt_02X (effect_id slot) ^^ ")").

Definition nl : string := String (ascii_of_nat 10) EmptyString.

(** Body of the [for slot in patch.effect_slots] loop of
    [print_patch_info]. *)
Definition print_slot (slot : EffectSlot) (_ : unit) : M unit :=
  let status := if enabled slot then "ON " else "OFF" in
  knob2_val <- getitem (knob_values slot) 1 ;;
  print ("  Slot " ^^ Py.str (slot_num slot) ^^ ": [" ^^ status ^^ "] "
         ^^ ljust (effect_name slot) 20 ^^ " | Knob2: "
         ^^ rjust (Py.str knob2_val) 4) ;;
  match raw_bytes slot with
  | [] => ret tt
  | _ =>
      let raw_hex := format_hex (Py.slice (raw_bytes slot) 0 8) in
      print ("           Raw: " ^^ raw_hex ^^ "...")
  end.

Definition print_patch_info (patch : PatchData) : M unit :=
  print (nl ^^ Py.repeat_char "=" 50) ;;
  print ("PATCH: " ^^ match patch_name patch with
                      | EmptyString => "(unnamed)"
                      | name => name
                      end) ;;
  print (Py.repeat_char "=" 50) ;;
  print (nl ^^ "Metadata: " ^^ format_hex (metadata patch)) ;;
  print ("Total bytes: " ^^ Py.str (Py.len (raw_data patch))) ;;
  print (nl ^^ "EFFECT SLOTS:") ;;
  print (Py.repeat_char "-" 50) ;;
  for_each (effect_slots patch) print_slot tt ;;
  print (Py.repeat_char "-" 50) ;;
  if PATCH_NAME_OFFSET <? Py.len (raw_data patch) then
    let name_bytes :=
      Py.slice (raw_data patch) PATCH_NAME_OFFSET
               (PATCH_NAME_OFFSET + PATCH_NAME_LENGTH) in
    print (nl ^^ "Name bytes (@" ^^ Py.str PATCH_NAME_OFFSET ^^ "): "
           ^^ format_hex name_bytes) ;;
    print ("  ASCII: "
           ^^ Py.string_of_chars
                (map (fun b => if (32 <=? b) && (b <? 127)
                               then Py.chr b else "."%char) name_bytes))
  else ret tt.

Definition set_in_edit_mode (self : ZoomG3X) (b : bool) : ZoomG3X :=
  mkZoomG3X (port_name self) (port self) (input_port self) b.
Definition set_port (self : ZoomG3X) (p : option string) : ZoomG3X :=
  mkZoomG3X (port_name self) p (input_port self) (in_edit_mode self).
Definition set_input_port (self : ZoomG3X) (p : option string) : ZoomG3X :=
  mkZoomG3X (port_name self) (port self) p (in_edit_mode self).

(** [ZoomG3X._send_program_change]. *)
Definition _send_program_change (self : ZoomG3X) (program : Z) : M unit :=
  match port self with
  | None => print "Not connected!"
  | Some _ =>
      msg <- mido_program_change program ;;
      print ("TX: Program Change " ^^ Py.str program) ;;
      port_send msg
  end.

(** [ZoomG3X.enter_edit_mode] and [exit_edit_mode]; the object after the
    call comes back with the return value. *)
Definition enter_edit_mode (self : ZoomG3X) : M (bool * ZoomG3X) :=
  _send_sysex self [CMD_ENTER_EDIT] ;;
  let self := set_in_edit_mode self true in
  print "Entered edit mode" ;;
  ret (true, self).

Definition exit_edit_mode (self : ZoomG3X) : M (bool * ZoomG3X) :=
  _send_sysex self [CMD_EXIT_EDIT] ;;
  let self := set_in_edit_mode self false in
  print "Exited edit mode" ;;
  ret (true, self).

(** [ZoomG3X.disconnect].  Closing a port leaves no event of its own in
    the trace; the object forgets the port. *)
Definition disconnect (self : ZoomG3X) : M ZoomG3X :=
  self <- (if in_edit_mode self
           then r <- exit_edit_mode self ;; ret (snd r)
           else ret self) ;;
  let self := match port self with
              | Some _ => set_port self None
              | None => self
              end in
  let self := match input_port self with
              | Some _ => set_input_port self None
              | None => self
              end in
  ret self.

(** [ZoomG3X.get_current_patch_data], [get_patch_info] and
    [get_current_program]. *)
Definition get_current_patch_data (self : ZoomG3X) : M (option (list Z)) :=
  _send_sysex self [CMD_GET_PATCH_DATA].

Definition get_patch_info (self : ZoomG3X) : M (option PatchData) :=
  response <- get_current_patch_data self ;;
  match response with
  | Some (b :: rest) => parse_patch_data (b :: rest)
  | _ => ret None
  end.

Definition get_current_program (self : ZoomG3X) : M (option (list Z)) :=
  response <- _send_sysex self [CMD_GET_PROGRAM_NUM] ;;
  match response with
  | Some (b :: rest) => ret (Some (b :: rest))
  | _ => ret None
  end.

(** [ZoomG3X.change_patch]. *)
Definition change_patch (self : ZoomG3X) (patch_num : Z) : M unit :=
  if (patch_num <? 0) || (99 <? patch_num) then
    print ("Invalid patch number: " ^^ Py.str patch_num ^^ " (must be 0-99)")
  else
    _send_program_change self patch_num ;;
    print ("Changed to patch " ^^ Py.str patch_num).

(** ** scan_commands.py: the parameter scan *)

(** Body of the [for param in range(param_range + 1)] loop of
    [scan_with_params]. *)
Definition scan_param (c param : Z) (_ : unit) : M unit :=
  responses <- Scan.send_sysex [c; param] 150 ;;
  log_write (nl ^^ "Command 0x" ^^ Py.fmt_02X c ^^ " 0x" ^^ Py.fmt_02X param
             ^^ nl) ;;
  log_write ("TX: F0 " ^^ format_hex (SYSEX_PREFIX ++ [c; param]) ^^ " F7"
             ^^ nl) ;;
  match responses with
  | first :: _ =>
      for_each responses
        (fun resp (_ : unit) =>
           log_write ("RX: F0 " ^^ format_hex resp ^^ " F7 ("
                      ^^ Py.str (Py.len resp) ^^ " bytes)" ^^ nl)) tt ;;
      print ("  0x" ^^ Py.fmt_02X c ^^ " 0x" ^^ Py.fmt_02X param ^^ ": "
             ^^ Py.str (Py.len first) ^^ " bytes")
  | [] => log_write ("RX: (no response)" ^^ nl)
  end.

Definition scan_with_params (c param_range : Z) : M unit :=
  print (nl ^^ "Scanning command 0x" ^^ Py.fmt_02X c
         ^^ " with params 0x00-0x" ^^ Py.fmt_02X param_range ^^ "...") ;;
  print (Py.repeat_char "-" 70) ;;
  for_each (Py.range 0 (param_range + 1)) (scan_param c) tt.

(** ** Closed forms for the remaining functions *)

(** The SysEx payloads of a drained batch, in arrival order. *)
Definition sysex_payloads (batch : list midi_msg) : list (list Z) :=
  flat_map (fun m => match m with Sysex d => [d] | _ => [] end) batch.

(** What [_send_sysex] makes of a drained batch: the payload of the last
    SysEx message, unless that payload is empty. *)
Definition last_reply (batch : list midi_msg) : option (list Z) :=
  match last (sysex_payloads batch) [] with
  | [] => None
  | b :: rest => Some (b :: rest)
  end.

(** The entries [scan_commands] builds when the k-th command of [cmds]
    is paired with the k-th batch still waiting in [pending]. *)
Fixpoint attribute (cmds : list Z) (pending : list (list midi_msg))
  : list Scan.result :=
  match cmds with
  | [] => []
  | c :: rest =>
      Scan.mkResult c (SYSEX_PREFIX ++ [c]) (sysex_payloads (hd [] pending))
      :: attribute rest (tl pending)
  end.

(** The note on the response command byte [r] for a request [c]. *)
Definition cmd_note (c r : Z) : string :=
  if r =? c - 1 then "resp_cmd=0x" ^^ Py.fmt_02X r ^^ " (req-1)"
  else if r =? c then "resp_cmd=0x" ^^ Py.fmt_02X r ^^ " (echo)"
  else "resp_cmd=0x" ^^ Py.fmt_02X r.

(** A window of six bytes that are all 0 or 1, and the offsets of a frame
    at which one starts. *)
Definition binary_window (response : list Z) (i : Z) : bool :=
  forallb (fun b => Py.mem b [0; 1]) (Py.slice response i (i + 6)).

Definition flag_offsets (response : list Z) : list Z :=
  filter (binary_window response) (Py.range 0 (Py.len response - 5)).

Definition flag_note (response : list Z) (i : Z) : string :=
  "possible flags @" ^^ Py.str i ^^ ": "
  ^^ Py.repr_ints (Py.slice response i (i + 6)).

Definition is_flag_note (note : string) : bool :=
  String.prefix "possible flags @" note.

Definition is_cmd_note (note : string) : bool :=
  String.prefix "resp_cmd=0x" note.

(** A character a patch name may hold: printable ASCII. *)
Definition name_char (c : ascii) : Prop :=
  (32 <= nat_of_ascii c < 127)%nat.

Fixpoint chars_of (s : string) : list ascii :=
  match s with
  | EmptyString => []
  | String c s' => c :: chars_of s'
  end.

(** A frame as the device sends it: every byte is seven bits wide. *)
Definition seven_bit (data : list Z) : Prop :=
  Forall (fun b => 0 <= b < 128) data.

(** A computation that only prints or writes to the log: it returns
    normally and leaves ports and pending input alone. *)
Definition io_free {A} (m : M A) : Prop :=
  forall w, exists a w',
    m w = (Ok a, w') /\ inbox w' = inbox w /\ sent w' = sent w
    /\ transport_io w' = transport_io w.

(** A state of the object without any port. *)
Definition unplugged : ZoomG3X := mkZoomG3X None None None false.

(** A world in which a stale two-byte reply sits in front of a patch dump. *)
Definition answering : World :=
  mkWorld [] [[Sysex [1; 2]; OtherMsg "clock"; Sysex sample_dump]; []].

(** A computation that runs like [io_free] and returns [r]. *)
Definition quiet_to {A} (r : A) (m : M A) : Prop :=
  forall w, exists w',
    m w = (Ok r, w') /\ inbox w' = inbox w /\ sent w' = sent w
    /\ transport_io w' = transport_io w.

(** The probe [scan_commands] sends for command [c], and the one
    [scan_with_params] sends for [c] and [param]. *)
Definition probe (c : Z) : midi_msg := Sysex (SYSEX_PREFIX ++ [c]).
Definition param_probe (c param : Z) : midi_msg :=
  Sysex (SYSEX_PREFIX ++ [c; param]).

(** A computation that does nothing but [n] calls of [print]. *)
Definition only_prints (n : nat) (m : M unit) : Prop :=
  forall w, exists lines,
    m w = (Ok tt, mkWorld (trace w ++ map EPrint lines) (inbox w))
    /\ List.length lines = n.

(** An upper-case hexadecimal digit, and text made of two of them. *)
Definition hex_digit (c : ascii) : bool :=
  let n := nat_of_ascii c in
  (((48 <=? n) && (n <=? 57)) || ((65 <=? n) && (n <=? 70)))%nat.

Definition two_hex_digits (s : string) : bool :=
  match s with
  | String a (String b EmptyString) => hex_digit a && hex_digit b
  | _ => false
  end.

(** The bytes of a name field in front of its first zero byte. *)
Fixpoint until_zero (l : list Z) : list Z :=
  match l with
  | [] => []
  | b :: rest => if b =? 0 then [] else b :: until_zero rest
  end.

(** * Properties *)

(** ** Numeric codec *)

Section Codec.

Lemma land_7F (x : Z) : Z.land x 0x7F = x mod 128.
Proof. change 0x7F with (Z.ones 7). now rewrite Z.land_ones by lia. Qed.

Lemma lor_low_high (a b : Z) :
  0 <= a < 128 -> Z.lor a (Z.shiftl b 7) = a + 128 * b.
Proof.
  intros Ha.
  assert (Hdisj : Z.land a (Z.shiftl b 7) = 0).
  { apply Z.bits_inj'. intros n Hn.
    rewrite Z.land_spec, Z.bits_0.
    destruct (Z.ltb_spec n 7).
    - rewrite Z.shiftl_spec_low by lia. apply andb_false_r.
    - replace (Z.testbit a n) with false; [reflexivity|].
      symmetry. destruct (Z.eq_dec a 0) as [->|Hz]; [apply Z.bits_0|].
      apply Z.bits_above_log2; [lia|].
      assert (Z.log2 a < 7) by (apply Z.log2_lt_pow2; lia). lia. }
  rewrite <- (Z.lxor_lor _ _ Hdisj), <- (Z.add_nocarry_lxor _ _ Hdisj).
  rewrite Z.shiftl_mul_pow2 by lia. change (2 ^ 7) with 128. lia.
Qed.

Lemma decode_14bit_arith (low high : Z) :
  decode_14bit low high = low mod 128 + 128 * (high mod 128).
Proof.
  unfold decode_14bit. rewrite !land_7F.
  apply lor_low_high. apply Z.mod_pos_bound. lia.
Qed.

Example decode_14bit_bytes_22_23 : decode_14bit 22 23 = 2966.
Proof. reflexivity. Qed.

Example decode_14bit_ignores_bit_7 : decode_14bit 0xFF 0x80 = 127.
Proof. reflexivity. Qed.

Example fmt_02X_samples :
  map Py.fmt_02X [0; 5; 40; 255; 4096; -1] = ["00"; "05"; "28"; "FF"; "1000"; "-1"].
Proof. reflexivity. Qed.

End Codec.

(** C3.  [decode_14bit] is total and, for all integers [low] and [high] (in
    particular all byte values 0..255), returns
    [(low & 0x7F) | ((high & 0x7F) << 7)]: only the low seven bits of each
    argument count, the two fields do not overlap, and the result lies in
    0..16383. *)
Theorem decode_14bit_masks_and_bounds (low high : Z) :
  decode_14bit low high
    = Z.lor (Z.land low 0x7F) (Z.shiftl (Z.land high 0x7F) 7)
  /\ decode_14bit low high
    = decode_14bit (Z.land low 0x7F) (Z.land high 0x7F)
  /\ decode_14bit low high = low mod 128 + 128 * (high mod 128)
  /\ 0 <= decode_14bit low high <= 16383.
Proof.
  split; [reflexivity|]. split; [|split].
  - rewrite !decode_14bit_arith, !land_7F, !Z.mod_mod by lia. reflexivity.
  - apply decode_14bit_arith.
  - rewrite decode_14bit_arith.
    pose proof (Z.mod_pos_bound low 128). pose proof (Z.mod_pos_bound high 128).
    lia.
Qed.

(** C4.  [encode_14bit] rejects every [v] outside 0..16383 with a range
    error; for [v] in 0..16383 it returns [(v & 0x7F, (v >> 7) & 0x7F)], and
    [decode_14bit] of that pair gives [v] back. *)
Theorem encode_14bit_roundtrip (v : Z) :
  (0 <= v <= 16383 ->
     encode_14bit v = Ok (Z.land v 0x7F, Z.land (Z.shiftr v 7) 0x7F)
     /\ decode_14bit (Z.land v 0x7F) (Z.land (Z.shiftr v 7) 0x7F) = v)
  /\ (~ (0 <= v <= 16383) -> encode_14bit v = Raise RangeError).
Proof.
  split.
  - intros Hv. split.
    + unfold encode_14bit.
      destruct (Z.ltb_spec v 0); [lia|].
      destruct (Z.ltb_spec 16383 v); [lia|]. reflexivity.
    + rewrite decode_14bit_arith, !land_7F, !Z.mod_mod by lia.
      rewrite Z.shiftr_div_pow2 by lia. change (2 ^ 7) with 128.
      assert (Hq : 0 <= v / 128 < 128).
      { split; [apply Z.div_pos; lia | apply Z.div_lt_upper_bound; lia]. }
      rewrite (Z.mod_small (v / 128)) by exact Hq.
      pose proof (Z.div_mod v 128). lia.
  - intros Hv. unfold encode_14bit.
    destruct (Z.ltb_spec v 0); [reflexivity|].
    destruct (Z.ltb_spec 16383 v); [reflexivity | lia].
Qed.

Lemma encode_14bit_roundtrip_witness :
  (encode_14bit 300 = Ok (Z.land 300 0x7F, Z.land (Z.shiftr 300 7) 0x7F)
   /\ decode_14bit (Z.land 300 0x7F) (Z.land (Z.shiftr 300 7) 0x7F) = 300)
  /\ encode_14bit 16384 = Raise RangeError.
Proof.
  split.
  - apply (encode_14bit_roundtrip 300). lia.
  - apply (encode_14bit_roundtrip 16384). lia.
Defined.

(** ** Running monadic code *)

Section Monad.

Lemma getitem_ok (l : list Z) (i : Z) (w : World) :
  0 <= i < Py.len l -> getitem l i w = (Ok (byte_at l i), w).
Proof.
  intros Hi. unfold getitem.
  destruct (Z.leb_spec 0 i); [|lia].
  destruct (Z.ltb_spec i (Py.len l)); [|lia]. reflexivity.
Qed.

Lemma setitem_ok (l : list Z) (i v : Z) (w : World) :
  0 <= i < Py.len l ->
  setitem l i v w
    = (Ok (firstn (Z.to_nat i) l ++ v :: skipn (S (Z.to_nat i)) l), w).
Proof.
  intros Hi. unfold setitem.
  destruct (Z.leb_spec 0 i); [|lia].
  destruct (Z.ltb_spec i (Py.len l)); [|lia]. reflexivity.
Qed.

Lemma bytes_ok (data : list Z) (w : World) :
  all_bytes data -> bytes data w = (Ok data, w).
Proof.
  intros H. unfold bytes.
  replace (forallb _ data) with true; [reflexivity|].
  symmetry. apply forallb_forall. intros b Hb.
  unfold all_bytes in H. rewrite Forall_forall in H. specialize (H b Hb).
  apply andb_true_intro. split; [apply Z.leb_le | apply Z.ltb_lt]; lia.
Qed.

Lemma leb_true (a b : Z) : a <= b -> (a <=? b) = true.
Proof. apply Z.leb_le. Qed.

Lemma ltb_true (a b : Z) : a < b -> (a <? b) = true.
Proof. apply Z.ltb_lt. Qed.

Lemma ltb_false (a b : Z) : b <= a -> (a <? b) = false.
Proof. apply Z.ltb_ge. Qed.

Lemma list_eqb_eq (l m : list Z) : Py.list_eqb l m = true <-> l = m.
Proof.
  revert m. induction l as [|x l IH]; intros [|y m]; simpl;
    try (split; [discriminate | discriminate]); try tauto.
  rewrite andb_true_iff, Z.eqb_eq, IH. split.
  - intros [-> ->]. reflexivity.
  - intros E. injection E as -> ->. tauto.
Qed.

Lemma land_1_odd (b : Z) : negb (Z.land b 0x01 =? 0) = Z.odd b.
Proof.
  change 0x01 with (Z.ones 1). rewrite Z.land_ones by lia.
  change (2 ^ 1) with 2. rewrite Zmod_odd.
  destruct (Z.odd b); reflexivity.
Qed.

End Monad.

(** One step of symbolic execution: settle a guard or an indexing whose
    bounds follow from the frame length. *)
Ltac bounds := unfold Py.len, knob2_positions, byte_at in *; simpl; lia.

Ltac run_step :=
  first
    [ rewrite getitem_ok by bounds
    | rewrite setitem_ok by bounds
    | rewrite leb_true by bounds
    | rewrite ltb_true by bounds
    | match goal with
      | |- context [Py.mem ?i ?l] =>
          let b := eval vm_compute in (Py.mem i l) in
          change (Py.mem i l) with b
      end ];
  cbv beta iota.

(** ** Patch layout decoder *)

Section Decoder.

Lemma parse_slot_full (data : list Z) (i : Z) (patch : PatchData) (w : World) :
  long_enough data -> 0 <= i < 6 ->
  parse_slot data data i patch w
    = (Ok (append_slot patch (full_slot data i)), w).
Proof.
  unfold long_enough. intros Hlen Hi.
  assert (Hc : i = 0 \/ i = 1 \/ i = 2 \/ i = 3 \/ i = 4 \/ i = 5) by lia.
  destruct Hc as [->|[->|[->|[->|[->| ->]]]]];
    unfold parse_slot, EFFECT_SLOT_SIZE, bind, ret;
    repeat run_step; rewrite land_1_odd; reflexivity.
Qed.

Lemma nonempty_of_long (data : list Z) :
  long_enough data -> match data with [] => true | _ => false end = false.
Proof.
  unfold long_enough, Py.len. destruct data; simpl; [lia | reflexivity].
Qed.

Lemma short_guard (data : list Z) :
  ~ long_enough data ->
  match data with [] => true | _ => false end || (Py.len data <? 100) = true.
Proof.
  unfold long_enough. intros H. rewrite ltb_true by lia. apply orb_true_r.
Qed.

Lemma short_count (data : list Z) :
  match data with [] => 0 | _ => Py.len data end = Py.len data.
Proof. destruct data; reflexivity. Qed.

Lemma prefix_append (s t : string) : String.prefix s (s ^^ t) = true.
Proof.
  induction s as [|c s IH]; simpl.
  - destruct t; reflexivity.
  - destruct (ascii_dec c c) as [_|N]; [exact IH | now elim N].
Qed.

(** The whole function on a frame that passes the three checks. *)
Lemma parse_patch_data_full (data : list Z) (w : World) :
  long_enough data -> prefix_ok data -> tag_ok data -> all_bytes data ->
  parse_patch_data data w = (Ok (Some (full_patch data)), w).
Proof.
  intros Hlen Hpre Htag Hbytes. unfold parse_patch_data.
  rewrite (nonempty_of_long _ Hlen).
  rewrite ltb_false by exact Hlen.
  unfold prefix_ok in Hpre. rewrite Hpre.
  change (negb (Py.list_eqb SYSEX_PREFIX SYSEX_PREFIX)) with false.
  change (false || false) with false. cbv beta iota.
  unfold bind at 1.
  rewrite getitem_ok by (unfold long_enough in Hlen; lia).
  unfold tag_ok in Htag. rewrite Htag.
  change (negb (40 =? 40)) with false. cbv beta iota.
  unfold bind at 1. rewrite (bytes_ok _ _ Hbytes).
  change (Py.range 0 NUM_EFFECT_SLOTS) with [0; 1; 2; 3; 4; 5].
  unfold for_each, bind, ret.
  rewrite !parse_slot_full by (assumption || lia).
  unfold full_patch, name_of.
  change (PATCH_NAME_OFFSET + PATCH_NAME_LENGTH) with 107.
  change PATCH_NAME_OFFSET with 96.
  destruct (107 <? Py.len data); reflexivity.
Qed.

Example parse_sample_dump_name :
  option_map patch_name (match fst (parse_patch_data sample_dump idle) with
                         | Ok r => r
                         | Raise _ => None
                         end) = Some "`abcdefghij".
Proof. reflexivity. Qed.

Example parse_rejects_non_bytes :
  fst (parse_patch_data (SYSEX_PREFIX ++ [0x28] ++ repeat 300 96) idle)
    = Raise ValueError.
Proof. reflexivity. Qed.

Example parse_short_line :
  parse_patch_data [1; 2; 3] idle
    = (Ok None, printed idle "Patch data too short: 3 bytes").
Proof. reflexivity. Qed.

Example parse_foreign_line :
  parse_patch_data sample_foreign idle
    = (Ok None,
       printed idle "Invalid header: expected [82, 0, 89], got [83, 0, 89]").
Proof. reflexivity. Qed.

Example parse_request_line :
  parse_patch_data sample_request idle
    = (Ok None, printed idle "Unexpected command byte: 0x29").
Proof. reflexivity. Qed.

End Decoder.

Section DecoderTheorems.

Lemma all_bytes_check (data : list Z) :
  forallb (fun b => (0 <=? b) && (b <? 256)) data = true -> all_bytes data.
Proof.
  intros H. apply Forall_forall. intros b Hb.
  rewrite forallb_forall in H. specialize (H b Hb).
  apply andb_prop in H. destruct H as [H1 H2].
  apply Z.leb_le in H1. apply Z.ltb_lt in H2. lia.
Qed.

Lemma long_enough_dec (data : list Z) : long_enough data \/ ~ long_enough data.
Proof. unfold long_enough. lia. Qed.

Lemma prefix_ok_dec (data : list Z) : prefix_ok data \/ ~ prefix_ok data.
Proof.
  unfold prefix_ok.
  destruct (Py.list_eqb (Py.slice data 0 3) SYSEX_PREFIX) eqn:E.
  - left. now apply list_eqb_eq.
  - right. intros H. apply list_eqb_eq in H. congruence.
Qed.

Lemma tag_ok_dec (data : list Z) : tag_ok data \/ ~ tag_ok data.
Proof. unfold tag_ok. lia. Qed.

Lemma parse_too_short (data : list Z) (w : World) :
  ~ long_enough data ->
  parse_patch_data data w
    = (Ok None,
       printed w ("Patch data too short: " ^^ Py.str (Py.len data)
                  ^^ " bytes")).
Proof.
  intros H. unfold parse_patch_data.
  rewrite (short_guard _ H), short_count. reflexivity.
Qed.

Lemma parse_bad_prefix (data : list Z) (w : World) :
  long_enough data -> ~ prefix_ok data ->
  parse_patch_data data w
    = (Ok None,
       printed w ("Invalid header: expected [82, 0, 89], got "
                  ^^ Py.repr_ints (Py.slice data 0 3))).
Proof.
  intros Hlen Hpre. unfold parse_patch_data.
  rewrite (nonempty_of_long _ Hlen), ltb_false by exact Hlen.
  replace (Py.list_eqb (Py.slice data 0 3) SYSEX_PREFIX) with false.
  - reflexivity.
  - symmetry. apply not_true_is_false. intros E.
    apply Hpre. now apply list_eqb_eq.
Qed.

Lemma parse_bad_tag (data : list Z) (w : World) :
  long_enough data -> prefix_ok data -> ~ tag_ok data ->
  parse_patch_data data w
    = (Ok None,
       printed w ("Unexpected command byte: 0x"
                  ^^ Py.fmt_02X (byte_at data 3))).
Proof.
  intros Hlen Hpre Htag. unfold parse_patch_data.
  rewrite (nonempty_of_long _ Hlen), ltb_false by exact Hlen.
  unfold prefix_ok in Hpre. rewrite Hpre.
  change (negb (Py.list_eqb SYSEX_PREFIX SYSEX_PREFIX)) with false.
  change (false || false) with false. cbv beta iota.
  unfold bind at 1.
  rewrite getitem_ok by (unfold long_enough in Hlen; lia).
  replace (byte_at data 3 =? 40) with false.
  - cbv beta iota. change (negb false) with true. cbv beta iota.
    unfold bind at 1.
    rewrite getitem_ok by (unfold long_enough in Hlen; lia).
    reflexivity.
  - symmetry. apply Z.eqb_neq. exact Htag.
Qed.

(** C1.  [parse_patch_data] checks length >= 100, then the three-byte
    prefix, then the tag 0x28 at offset 3.  The first check that fails
    decides the outcome: the call returns [None] after printing one line,
    and that line tells which check it was.  A snapshot is returned only
    when all three checks hold. *)
Theorem parse_patch_data_checks_in_order (data : list Z) (w : World) :
  (~ long_enough data ->
     exists line,
       parse_patch_data data w = (Ok None, printed w line)
       /\ diagnosed line = Some TooShort)
  /\ (long_enough data -> ~ prefix_ok data ->
     exists line,
       parse_patch_data data w = (Ok None, printed w line)
       /\ diagnosed line = Some BadPrefix)
  /\ (long_enough data -> prefix_ok data -> ~ tag_ok data ->
     exists line,
       parse_patch_data data w = (Ok None, printed w line)
       /\ diagnosed line = Some BadTag)
  /\ (forall p w',
        parse_patch_data data w = (Ok (Some p), w') ->
        long_enough data /\ prefix_ok data /\ tag_ok data).
Proof.
  assert (Hshort : ~ long_enough data ->
     exists line,
       parse_patch_data data w = (Ok None, printed w line)
       /\ diagnosed line = Some TooShort).
  { intros H. eexists. split; [apply (parse_too_short _ _ H)|].
    unfold diagnosed. now rewrite prefix_append. }
  assert (Hprefix : long_enough data -> ~ prefix_ok data ->
     exists line,
       parse_patch_data data w = (Ok None, printed w line)
       /\ diagnosed line = Some BadPrefix).
  { intros H1 H2. eexists. split; [apply (parse_bad_prefix _ _ H1 H2)|].
    reflexivity. }
  assert (Htag : long_enough data -> prefix_ok data -> ~ tag_ok data ->
     exists line,
       parse_patch_data data w = (Ok None, printed w line)
       /\ diagnosed line = Some BadTag).
  { intros H1 H2 H3. eexists.
    split; [apply (parse_bad_tag _ _ H1 H2 H3)|]. reflexivity. }
  split; [exact Hshort|]. split; [exact Hprefix|]. split; [exact Htag|].
  intros p w' Hp.
  destruct (long_enough_dec data) as [H1|H1].
  - destruct (prefix_ok_dec data) as [H2|H2].
    + destruct (tag_ok_dec data) as [H3|H3]; [tauto|].
      destruct (Htag H1 H2 H3) as (line & E & _). congruence.
    + destruct (Hprefix H1 H2) as (line & E & _). congruence.
  - destruct (Hshort H1) as (line & E & _). congruence.
Qed.

Lemma parse_patch_data_checks_in_order_witness :
  (exists line,
     parse_patch_data [1; 2; 3] idle = (Ok None, printed idle line)
     /\ diagnosed line = Some TooShort)
  /\ (exists line,
     parse_patch_data sample_foreign idle = (Ok None, printed idle line)
     /\ diagnosed line = Some BadPrefix)
  /\ (exists line,
     parse_patch_data sample_request idle = (Ok None, printed idle line)
     /\ diagnosed line = Some BadTag).
Proof.
  split; [|split].
  - destruct (parse_patch_data_checks_in_order [1; 2; 3] idle) as (H & _).
    apply H. unfold long_enough, Py.len. simpl. lia.
  - destruct (parse_patch_data_checks_in_order sample_foreign idle)
      as (_ & H & _).
    apply H.
    + unfold long_enough, Py.len. simpl. lia.
    + unfold prefix_ok. vm_compute. discriminate.
  - destruct (parse_patch_data_checks_in_order sample_request idle)
      as (_ & _ & H & _).
    apply H.
    + unfold long_enough, Py.len. simpl. lia.
    + reflexivity.
    + unfold tag_ok. vm_compute. discriminate.
Defined.

(** C2.  On a frame of at least 100 bytes that starts with the prefix
    [0x52, 0x00, 0x59] and has 0x28 at offset 3, [parse_patch_data] returns
    a snapshot with exactly six slots whose [slot_num]s are 0, 1, ..., 5 in
    that order, whatever the rest of the frame holds; nothing is printed. *)
Theorem parse_patch_data_six_slots (data : list Z) (w : World) :
  long_enough data -> prefix_ok data -> tag_ok data -> all_bytes data ->
  exists p,
    parse_patch_data data w = (Ok (Some p), w)
    /\ List.length (effect_slots p) = 6%nat
    /\ map slot_num (effect_slots p) = [0; 1; 2; 3; 4; 5].
Proof.
  intros Hlen Hpre Htag Hbytes. exists (full_patch data).
  split; [now apply parse_patch_data_full|]. split; reflexivity.
Qed.

Lemma parse_patch_data_six_slots_witness :
  exists p,
    parse_patch_data sample_dump idle = (Ok (Some p), idle)
    /\ List.length (effect_slots p) = 6%nat
    /\ map slot_num (effect_slots p) = [0; 1; 2; 3; 4; 5].
Proof.
  apply (parse_patch_data_six_slots sample_dump idle).
  - unfold long_enough, Py.len. simpl. lia.
  - reflexivity.
  - reflexivity.
  - apply all_bytes_check. reflexivity.
Defined.

(** C5.  On a validated frame the second knob of the six slots comes from
    the absolute offsets 8, 22, 35, 50, 64 and 78 of the frame: slots 1 and
    2 take the 14-bit value of the two bytes at their offset, slots 0, 3, 4
    and 5 take the single byte at theirs. *)
Theorem knob2_read_from_offset_table (data : list Z) (w : World) :
  long_enough data -> prefix_ok data -> tag_ok data -> all_bytes data ->
  exists p,
    parse_patch_data data w = (Ok (Some p), w)
    /\ knob2_positions = [8; 22; 35; 50; 64; 78]
    /\ map (fun s => nth_error (knob_values s) 1) (effect_slots p)
       = [ Some (byte_at data 8);
           Some (decode_14bit (byte_at data 22) (byte_at data 23));
           Some (decode_14bit (byte_at data 35) (byte_at data 36));
           Some (byte_at data 50);
           Some (byte_at data 64);
           Some (byte_at data 78) ].
Proof.
  intros Hlen Hpre Htag Hbytes. exists (full_patch data).
  split; [now apply parse_patch_data_full|]. split; reflexivity.
Qed.

Lemma knob2_read_from_offset_table_witness :
  exists p,
    parse_patch_data sample_dump idle = (Ok (Some p), idle)
    /\ knob2_positions = [8; 22; 35; 50; 64; 78]
    /\ map (fun s => nth_error (knob_values s) 1) (effect_slots p)
       = [ Some (byte_at sample_dump 8);
           Some (decode_14bit (byte_at sample_dump 22)
                              (byte_at sample_dump 23));
           Some (decode_14bit (byte_at sample_dump 35)
                              (byte_at sample_dump 36));
           Some (byte_at sample_dump 50);
           Some (byte_at sample_dump 64);
           Some (byte_at sample_dump 78) ].
Proof.
  apply (knob2_read_from_offset_table sample_dump idle).
  - unfold long_enough, Py.len. simpl. lia.
  - reflexivity.
  - reflexivity.
  - apply all_bytes_check. reflexivity.
Defined.

Lemma slice_length (data : list Z) (a b : Z) :
  0 <= a <= b -> b <= Py.len data ->
  List.length (Py.slice data a b) = Z.to_nat (b - a).
Proof.
  unfold Py.slice, Py.len. intros Hab Hb.
  rewrite length_firstn, length_skipn. lia.
Qed.

(** C10.  On a validated frame neither fallback of the slot loop is taken:
    for each of the six slots the window test [slot_end <= len(data)] and
    the knob test [k2_pos + 1 < len(data)] both succeed (the windows end at
    offset 89 at most, the knob reads at 79 at most).  Every slot therefore
    carries its 14-byte window, the effect id and enable bit read from the
    first two bytes of that window, and a second knob value. *)
Theorem slot_fallbacks_unreachable (data : list Z) (w : World) :
  long_enough data -> prefix_ok data -> tag_ok data -> all_bytes data ->
  (forall i, 0 <= i < 6 ->
     let slot_start := 5 + i * EFFECT_SLOT_SIZE in
     let slot_end := slot_start + EFFECT_SLOT_SIZE in
     let k2_pos := byte_at knob2_positions i in
     slot_end <= 89 /\ (slot_end <=? Py.len data) = true
     /\ k2_pos + 1 <= 79 /\ (k2_pos + 1 <? Py.len data) = true)
  /\ exists p,
       parse_patch_data data w = (Ok (Some p), w)
       /\ List.length (effect_slots p) = 6%nat
       /\ forall i s,
            0 <= i < 6 ->
            nth_error (effect_slots p) (Z.to_nat i) = Some s ->
            raw_bytes s = Py.slice data (5 + 14 * i) (5 + 14 * i + 14)
            /\ List.length (raw_bytes s) = 14%nat
            /\ effect_id s = Z.land (byte_at data (5 + 14 * i)) 0x7F
            /\ enabled s = Z.odd (byte_at data (5 + 14 * i + 1))
            /\ knob_values s = [0; knob2_of data i; 0; 0].
Proof.
  intros Hlen Hpre Htag Hbytes. split.
  - intros i Hi. unfold long_enough in Hlen.
    assert (Hc : i = 0 \/ i = 1 \/ i = 2 \/ i = 3 \/ i = 4 \/ i = 5) by lia.
    destruct Hc as [->|[->|[->|[->|[->| ->]]]]]; cbv zeta;
      (split; [vm_compute; discriminate|]);
      (split; [apply leb_true; bounds|]);
      (split; [vm_compute; discriminate|]);
      apply ltb_true; bounds.
  - exists (full_patch data).
    split; [now apply parse_patch_data_full|]. split; [reflexivity|].
    intros i s Hi Hs.
    assert (Hfull : s = full_slot data i).
    { assert (Hc : i = 0 \/ i = 1 \/ i = 2 \/ i = 3 \/ i = 4 \/ i = 5) by lia.
      destruct Hc as [->|[->|[->|[->|[->| ->]]]]];
        simpl in Hs; injection Hs as <-; reflexivity. }
    subst s. unfold full_slot.
    cbn [raw_bytes effect_id enabled knob_values].
    repeat split; try reflexivity.
    unfold long_enough in Hlen. rewrite slice_length by lia.
    replace (5 + 14 * i + 14 - (5 + 14 * i)) with 14 by lia. reflexivity.
Qed.

Lemma slot_fallbacks_unreachable_witness :
  exists p,
    parse_patch_data sample_dump idle = (Ok (Some p), idle)
    /\ List.length (effect_slots p) = 6%nat
    /\ forall i s,
         0 <= i < 6 ->
         nth_error (effect_slots p) (Z.to_nat i) = Some s ->
         raw_bytes s = Py.slice sample_dump (5 + 14 * i) (5 + 14 * i + 14)
         /\ List.length (raw_bytes s) = 14%nat
         /\ effect_id s = Z.land (byte_at sample_dump (5 + 14 * i)) 0x7F
         /\ enabled s = Z.odd (byte_at sample_dump (5 + 14 * i + 1))
         /\ knob_values s = [0; knob2_of sample_dump i; 0; 0].
Proof.
  apply (slot_fallbacks_unreachable sample_dump idle).
  - unfold long_enough, Py.len. simpl. lia.
  - reflexivity.
  - reflexivity.
  - apply all_bytes_check. reflexivity.
Defined.

End DecoderTheorems.

(** ** Message construction *)

Section Messages.

Lemma data_byte_spec (b : Z) : data_byte b = true <-> 0 <= b < 128.
Proof.
  unfold data_byte. rewrite andb_true_iff, Z.leb_le, Z.leb_le. lia.
Qed.

Lemma seven_bit_check (data : list Z) :
  forallb data_byte data = true <-> seven_bit data.
Proof.
  unfold seven_bit. rewrite forallb_forall, Forall_forall.
  split; intros H b Hb; apply data_byte_spec; now apply H.
Qed.

Lemma seven_bit_framed (data : list Z) :
  seven_bit (SYSEX_PREFIX ++ data) <-> seven_bit data.
Proof.
  unfold seven_bit. rewrite Forall_app. split; [tauto|].
  intros H. split; [|exact H].
  unfold SYSEX_PREFIX. repeat constructor; lia.
Qed.

Lemma mido_sysex_ok (data : list Z) (w : World) :
  seven_bit data ->
  mido_sysex (SYSEX_PREFIX ++ data) w = (Ok (Sysex (SYSEX_PREFIX ++ data)), w).
Proof.
  intros H. unfold mido_sysex.
  replace (forallb data_byte (SYSEX_PREFIX ++ data)) with true; [reflexivity|].
  symmetry. now apply seven_bit_check, seven_bit_framed.
Qed.

Lemma mido_sysex_bad (data : list Z) (w : World) :
  ~ seven_bit data ->
  mido_sysex (SYSEX_PREFIX ++ data) w = (Raise ValueError, w).
Proof.
  intros H. unfold mido_sysex.
  destruct (forallb data_byte (SYSEX_PREFIX ++ data)) eqn:E; [|reflexivity].
  elim H. now apply seven_bit_framed, seven_bit_check.
Qed.

Lemma seven_bit_dec (data : list Z) : seven_bit data \/ ~ seven_bit data.
Proof.
  destruct (forallb data_byte data) eqn:E.
  - left. now apply seven_bit_check.
  - right. intros H. apply seven_bit_check in H. congruence.
Qed.

Lemma time_sleep_ok (ms : Z) (w : World) :
  0 <= ms -> time_sleep ms w = sleep_ms ms w.
Proof. intros H. unfold time_sleep. now rewrite ltb_false. Qed.

End Messages.

(** ** Command encoder *)

Section Encoder.

Lemma sent_emit (e : event) (w : World) :
  sent (snd (emit e w))
    = sent w ++ match e with ESend m => [m] | _ => [] end.
Proof. unfold sent, emit. simpl. rewrite flat_map_app. simpl. now rewrite app_nil_r. Qed.

Lemma sent_printed (w : World) (line : string) : sent (printed w line) = sent w.
Proof. unfold sent, printed. simpl. rewrite flat_map_app. simpl. now rewrite app_nil_r. Qed.

Lemma transport_io_printed (w : World) (line : string) :
  transport_io (printed w line) = transport_io w.
Proof.
  unfold transport_io, printed. simpl. rewrite filter_app. simpl.
  now rewrite app_nil_r.
Qed.

Lemma print_run (line : string) (w : World) :
  print line w = (Ok tt, printed w line).
Proof. reflexivity. Qed.

(** The loop that keeps the last SysEx reply only prints. *)
Lemma rx_loop_sent (pending : list midi_msg) :
  forall (acc : list Z) (w : World),
  exists r w',
    for_each pending
      (fun msg response =>
         match msg with
         | Sysex d => print ("RX: F0 " ^^ format_hex d ^^ " F7") ;; ret d
         | _ => ret response
         end) acc w = (Ok r, w')
    /\ sent w' = sent w.
Proof.
  induction pending as [|msg rest IH]; intros acc w.
  - exists acc, w. split; reflexivity.
  - simpl. destruct msg as [d| |].
    + unfold bind at 1. unfold bind at 1. rewrite print_run. unfold ret at 1.
      destruct (IH d (printed w ("RX: F0 " ^^ format_hex d ^^ " F7")))
        as (r & w' & E & Hs).
      exists r, w'. split; [exact E|]. now rewrite Hs, sent_printed.
    + unfold bind at 1, ret at 1. apply IH.
    + unfold bind at 1, ret at 1. apply IH.
Qed.

Lemma emit_run (e : event) (w : World) :
  emit e w = (Ok tt, snd (emit e w)).
Proof. reflexivity. Qed.

Lemma iter_pending_sent (w : World) :
  exists batch w', iter_pending w = (Ok batch, w') /\ sent w' = sent w.
Proof.
  unfold iter_pending. destruct (inbox w) as [|batch rest].
  - eexists _, _. split; [reflexivity|].
    unfold sent. simpl. rewrite flat_map_app. simpl. now rewrite app_nil_r.
  - eexists _, _. split; [reflexivity|].
    unfold sent. simpl. rewrite flat_map_app. simpl. now rewrite app_nil_r.
Qed.

(** With an open output port, [_send_sysex] hands exactly one message to
    it: the prefix followed by the payload, provided the payload is made
    of data bytes. *)
Lemma _send_sysex_sent (self : ZoomG3X) (data : list Z) (w : World) :
  connected self -> seven_bit data ->
  exists r w',
    _send_sysex self data w = (Ok r, w')
    /\ sent w' = sent w ++ [Sysex (SYSEX_PREFIX ++ data)].
Proof.
  unfold connected, _send_sysex. intros Hc H7.
  destruct (port self) as [name|]; [|congruence].
  unfold bind at 1. rewrite (mido_sysex_ok _ _ H7).
  unfold bind at 1. rewrite print_run.
  unfold bind at 1. unfold port_send. rewrite emit_run.
  set (w1 := snd (emit _ _)).
  assert (Hw1 : sent w1 = sent w ++ [Sysex (SYSEX_PREFIX ++ data)]).
  { unfold w1. now rewrite sent_emit, sent_printed. }
  destruct (input_port self) as [iname|].
  - unfold bind at 1. rewrite time_sleep_ok by lia.
    unfold sleep_ms. rewrite emit_run.
    set (w2 := snd (emit _ _)).
    assert (Hw2 : sent w2 = sent w1).
    { unfold w2. rewrite sent_emit. apply app_nil_r. }
    unfold bind at 1.
    destruct (iter_pending_sent w2) as (batch & w3 & E3 & Hw3).
    rewrite E3. unfold bind at 1.
    destruct (rx_loop_sent batch [] w3) as (r & w' & E & Hs).
    rewrite E. eexists _, _. split; [reflexivity|].
    now rewrite Hs, Hw3, Hw2, Hw1.
  - eexists _, _. split; [reflexivity|]. exact Hw1.
Qed.

Example enable_slot_3_trace :
  set_effect_enabled plugged 3 true idle
    = (Ok tt,
       mkWorld [ EPrint "TX: F0 52 00 59 31 03 00 01 00 F7";
                 ESend (Sysex [0x52; 0x00; 0x59; 0x31; 3; 0x00; 1; 0]);
                 ESleep 100;
                 EPending [];
                 EPrint "Slot 3: ON" ] []).
Proof. reflexivity. Qed.

Example effect_200_is_refused :
  set_effect_type plugged 2 200 idle = (Raise ValueError, idle).
Proof. reflexivity. Qed.

Example unplugged_sends_nothing :
  set_effect_type (mkZoomG3X None None None false) 2 0x02 idle
    = (Ok tt,
       mkWorld [ EPrint "Not connected!";
                 EPrint "Slot 2: Changed to Z-Organ" ] []).
Proof. reflexivity. Qed.

End Encoder.

Section EncoderTheorems.

Lemma slot_guard_out (slot : Z) :
  slot < 0 \/ 5 < slot -> (slot <? 0) || (5 <? slot) = true.
Proof.
  intros [H|H].
  - now rewrite ltb_true.
  - rewrite (ltb_true 5 slot) by exact H. apply orb_true_r.
Qed.

Lemma slot_guard_in (slot : Z) :
  0 <= slot <= 5 -> (slot <? 0) || (5 <? slot) = false.
Proof. intros H. now rewrite !ltb_false by lia. Qed.

(** C6 as stated, at slot 6: none of the three calls fails with a range
    error, or with any other exception; each returns normally. *)
Lemma invalid_slot_raises_nothing :
  ~ (exists w', set_effect_enabled plugged 6 true idle
                = (Raise RangeError, w'))
  /\ ~ (exists w', set_effect_type plugged 6 0x02 idle
                   = (Raise RangeError, w'))
  /\ ~ (exists w', set_knob_value plugged 6 1 40 idle
                   = (Raise RangeError, w'))
  /\ set_effect_enabled plugged 6 true idle
     = (Ok tt, printed idle "Invalid slot: 6 (must be 0-5)").
Proof.
  repeat split; try (intros (w' & H); vm_compute in H; discriminate).
Qed.

(** C6, amended.  For a slot outside 0..5, [set_effect_enabled],
    [set_effect_type] and [set_knob_value] print the line
    [Invalid slot: <slot> (must be 0-5)] and return normally, raising
    nothing: no payload is built or handed to the port, and nothing is
    sent, slept on or drained. *)
Theorem invalid_slot_rejected_before_io
    (self : ZoomG3X) (slot effect knob value : Z) (on : bool) (w : World) :
  slot < 0 \/ 5 < slot ->
  let w' := printed w ("Invalid slot: " ^^ Py.str slot ^^ " (must be 0-5)") in
  set_effect_enabled self slot on w = (Ok tt, w')
  /\ set_effect_type self slot effect w = (Ok tt, w')
  /\ set_knob_value self slot knob value w = (Ok tt, w')
  /\ sent w' = sent w
  /\ transport_io w' = transport_io w.
Proof.
  intros Hslot w'.
  unfold set_effect_enabled, set_effect_type, set_knob_value.
  rewrite (slot_guard_out _ Hslot).
  repeat split.
  - apply sent_printed.
  - apply transport_io_printed.
Qed.

Lemma invalid_slot_rejected_before_io_witness :
  let w' := printed idle "Invalid slot: 6 (must be 0-5)" in
  set_effect_enabled plugged 6 true idle = (Ok tt, w')
  /\ set_effect_type plugged 6 2 idle = (Ok tt, w')
  /\ set_knob_value plugged 6 1 40 idle = (Ok tt, w')
  /\ sent w' = sent idle
  /\ transport_io w' = transport_io idle.
Proof.
  apply (invalid_slot_rejected_before_io plugged 6 2 1 40 true idle). lia.
Defined.

Lemma _send_sysex_rejects (self : ZoomG3X) (data : list Z) (w : World) :
  connected self -> ~ seven_bit data ->
  _send_sysex self data w = (Raise ValueError, w).
Proof.
  unfold connected, _send_sysex. intros Hc H7.
  destruct (port self) as [name|]; [|congruence].
  unfold bind at 1. now rewrite (mido_sysex_bad _ _ H7).
Qed.

Lemma seven_bit_has (data : list Z) (b : Z) :
  In b data -> ~ 0 <= b <= 127 -> ~ seven_bit data.
Proof.
  intros Hin Hb H. unfold seven_bit in H. rewrite Forall_forall in H.
  specialize (H b Hin). lia.
Qed.

(** C7 as stated, at effect id 200, knob number 127 and value 200 on slot
    3 of a connected object: the payload is not accepted.  Building the
    message raises [ValueError]; nothing is printed and nothing is sent. *)
Lemma mutation_payload_refused :
  set_effect_type plugged 3 200 idle = (Raise ValueError, idle)
  /\ set_knob_value plugged 3 127 40 idle = (Raise ValueError, idle)
  /\ set_knob_value plugged 3 1 200 idle = (Raise ValueError, idle)
  /\ ~ (exists w',
          set_effect_type plugged 3 200 idle = (Ok tt, w')
          /\ sent w' = sent idle
                       ++ [Sysex (SYSEX_PREFIX ++ [0x31; 3; 0x01; 200; 0])]).
Proof.
  split; [reflexivity|]. split; [reflexivity|]. split; [reflexivity|].
  intros (w' & H & _). vm_compute in H. discriminate.
Qed.

(** C7, amended.  For a slot in 0..5 on an object with an open output
    port the three mutations send exactly one message, the prefix followed
    by [[0x31, slot, 0x00, 1 or 0, 0]] for switching a slot on or off,
    by [[0x31, slot, 0x01, effect, 0]] for changing the effect type,
    whatever [effect] in 0..127 is given, and by
    [[0x31, slot, 0, knob + 1, value, 0]] for setting a knob, whatever
    [knob + 1] and [value] in 0..127 are given.  The methods check nothing
    but the slot; a payload byte outside 0..127 makes the construction of
    the message raise [ValueError] before anything is printed or sent. *)
Theorem mutation_payloads
    (self : ZoomG3X) (slot effect knob value : Z) (on : bool) (w : World) :
  0 <= slot <= 5 -> connected self ->
  let enable_payload := [0x31; slot; 0x00; if on then 1 else 0; 0] in
  let type_payload := [0x31; slot; 0x01; effect; 0] in
  let knob_payload := [0x31; slot; 0; knob + 1; value; 0] in
  (exists w', set_effect_enabled self slot on w = (Ok tt, w')
              /\ sent w' = sent w ++ [Sysex (SYSEX_PREFIX ++ enable_payload)])
  /\ (0 <= effect <= 127 ->
      exists w', set_effect_type self slot effect w = (Ok tt, w')
                 /\ sent w' = sent w ++ [Sysex (SYSEX_PREFIX ++ type_payload)])
  /\ (~ 0 <= effect <= 127 ->
      set_effect_type self slot effect w = (Raise ValueError, w))
  /\ (0 <= knob + 1 <= 127 -> 0 <= value <= 127 ->
      exists w', set_knob_value self slot knob value w = (Ok tt, w')
                 /\ sent w' = sent w ++ [Sysex (SYSEX_PREFIX ++ knob_payload)])
  /\ (~ (0 <= knob + 1 <= 127 /\ 0 <= value <= 127) ->
      set_knob_value self slot knob value w = (Raise ValueError, w)).
Proof.
  intros Hslot Hc enable_payload type_payload knob_payload.
  unfold set_effect_enabled, set_effect_type, set_knob_value.
  rewrite (slot_guard_in _ Hslot).
  change CMD_MODIFY_EFFECT with 0x31.
  change SUBCMD_ON_OFF with 0x00. change SUBCMD_EFFECT_TYPE with 0x01.
  assert (Hsend : forall data line,
             seven_bit data ->
             exists w', (_send_sysex self data ;; print line) w = (Ok tt, w')
                        /\ sent w' = sent w ++ [Sysex (SYSEX_PREFIX ++ data)]).
  { intros data line H7.
    destruct (_send_sysex_sent self data w Hc H7) as (r & w1 & E & Hs).
    unfold bind. rewrite E, print_run. eexists. split; [reflexivity|].
    now rewrite sent_printed. }
  assert (Hrefuse : forall data line,
             ~ seven_bit data ->
             (_send_sysex self data ;; print line) w = (Raise ValueError, w)).
  { intros data line H7. unfold bind.
    now rewrite (_send_sysex_rejects self data w Hc H7). }
  split; [|split; [|split; [|split]]].
  - replace [49; slot; 0; if on then 1 else 0; 0] with enable_payload
      by (unfold enable_payload; destruct on; reflexivity).
    apply Hsend. unfold enable_payload, seven_bit.
    destruct on; repeat constructor; lia.
  - intros He. apply Hsend. unfold seven_bit. repeat constructor; lia.
  - intros He. apply Hrefuse. apply (seven_bit_has _ effect); simpl; tauto.
  - intros Hk Hv. apply Hsend. unfold seven_bit. repeat constructor; lia.
  - intros Hkv. apply Hrefuse.
    destruct (Z_le_dec 0 (knob + 1)) as [H1|H1];
      [destruct (Z_le_dec (knob + 1) 127) as [H2|H2]|].
    + apply (seven_bit_has _ value); [simpl; tauto | lia].
    + apply (seven_bit_has _ (knob + 1)); [simpl; tauto | lia].
    + apply (seven_bit_has _ (knob + 1)); [simpl; tauto | lia].
Qed.

Lemma mutation_payloads_witness :
  (exists w', set_effect_enabled plugged 3 true idle = (Ok tt, w')
              /\ sent w' = sent idle
                           ++ [Sysex (SYSEX_PREFIX ++ [0x31; 3; 0x00; 1; 0])])
  /\ (exists w', set_effect_type plugged 3 0x02 idle = (Ok tt, w')
              /\ sent w' = sent idle
                           ++ [Sysex (SYSEX_PREFIX ++ [0x31; 3; 0x01; 0x02; 0])])
  /\ (exists w', set_knob_value plugged 3 2 40 idle = (Ok tt, w')
              /\ sent w' = sent idle
                           ++ [Sysex (SYSEX_PREFIX ++ [0x31; 3; 0; 3; 40; 0])]).
Proof.
  assert (Hslot : 0 <= 3 <= 5) by lia.
  assert (Hc : connected plugged) by (unfold connected; simpl; discriminate).
  destruct (mutation_payloads plugged 3 0x02 2 40 true idle Hslot Hc)
    as (Ha & Hb & _ & Hd & _).
  split; [exact Ha|]. split; [apply Hb; lia | apply Hd; lia].
Defined.

End EncoderTheorems.

(** ** Discovery scanner *)

Section Scanner.

Import Scan.

Lemma collect_silent (batch : list midi_msg) :
  forall (acc : list (list Z)) (w : World),
  silent batch ->
  for_each batch
    (fun msg responses =>
       match msg with
       | Sysex d => ret (responses ++ [d])
       | _ => ret responses
       end) acc w = (Ok acc, w).
Proof.
  induction batch as [|msg rest IH]; intros acc w Hs; [reflexivity|].
  simpl. destruct msg as [d| |].
  - exfalso. apply (Hs d). now left.
  - unfold bind, ret at 1. apply IH. intros d Hd. apply (Hs d). now right.
  - unfold bind, ret at 1. apply IH. intros d Hd. apply (Hs d). now right.
Qed.

Lemma scan_one_silent (c : Z) (results : list result) (w : World) :
  0 <= c <= 127 ->
  Forall silent (inbox w) ->
  scan_one c results w
    = (Ok (results ++ [mkResult c (SYSEX_PREFIX ++ [c]) []]),
       mkWorld (trace w ++ unanswered c (hd [] (inbox w))) (tl (inbox w))).
Proof.
  intros Hc Hs. unfold scan_one, send_sysex.
  assert (H7 : seven_bit [c]) by (repeat constructor; lia).
  unfold bind at 1. unfold bind at 1. rewrite (mido_sysex_ok _ _ H7).
  unfold bind at 1. unfold port_send. rewrite emit_run.
  unfold bind at 1. rewrite time_sleep_ok by lia.
  unfold sleep_ms. rewrite emit_run.
  unfold bind at 1. unfold iter_pending, emit. simpl.
  destruct (inbox w) as [|batch rest] eqn:Ei.
  - simpl. unfold bind, log_write, log_flush, print, emit, ret. simpl.
    repeat rewrite <- app_assoc. reflexivity.
  - rewrite collect_silent by (now inversion Hs).
    unfold bind, log_write, log_flush, print, emit, ret. simpl.
    repeat rewrite <- app_assoc. reflexivity.
Qed.

Lemma sent_app (t : list event) (i : list (list midi_msg)) (evs : list event) :
  sent (mkWorld (t ++ evs) i) = sent (mkWorld t i) ++ sent (mkWorld evs i).
Proof. unfold sent. simpl. apply flat_map_app. Qed.

Lemma scan_loop_silent (cmds : list Z) :
  seven_bit cmds ->
  forall (results : list result) (w : World),
  Forall silent (inbox w) ->
  exists w',
    for_each cmds scan_one results w
      = (Ok (results
             ++ map (fun c => mkResult c (SYSEX_PREFIX ++ [c]) []) cmds), w')
    /\ sent w' = sent w ++ map (fun c => Sysex (SYSEX_PREFIX ++ [c])) cmds.
Proof.
  induction 1 as [|c rest Hc Hrest IH]; intros results w Hs.
  - exists w. simpl. now rewrite !app_nil_r.
  - simpl. unfold bind at 1.
    rewrite (scan_one_silent c results w ltac:(lia) Hs).
    set (w1 := mkWorld _ _).
    assert (Hs1 : Forall silent (inbox w1)).
    { unfold w1. simpl. destruct (inbox w); [constructor|].
      now inversion Hs. }
    destruct (IH (results ++ [mkResult c (SYSEX_PREFIX ++ [c]) []]) w1 Hs1)
      as (w' & E & Hsent).
    exists w'. split.
    + rewrite E. now rewrite <- app_assoc.
    + rewrite Hsent. unfold w1, sent. simpl. rewrite flat_map_app. simpl.
      now rewrite <- app_assoc.
Qed.

End Scanner.

Section ScannerTheorems.

Import Scan.

Lemma responding_no_answer (cmds : list Z) :
  responding (map no_answer cmds) = [].
Proof. induction cmds as [|c rest IH]; [reflexivity | exact IH]. Qed.

(** C9 as stated, on the range 0x7F..0x80 with nothing ever answering:
    the scan does not produce a report.  After the probe for 0x7F the
    message for 0x80 cannot be built, and the scan ends with [ValueError]. *)
Lemma scan_commands_aborts_past_7F :
  Forall silent (inbox quiet)
  /\ fst (scan_commands 0x7F 0x80 quiet) = Raise ValueError
  /\ sent (snd (scan_commands 0x7F 0x80 quiet))
     = [Sysex (SYSEX_PREFIX ++ [0x7F])]
  /\ ~ (exists results w',
          scan_commands 0x7F 0x80 quiet = (Ok results, w')).
Proof.
  split.
  { unfold quiet, silent. simpl.
    repeat constructor; intros d H; simpl in H;
      repeat (destruct H as [H|H]; [discriminate|]); exact H. }
  split; [reflexivity|]. split; [reflexivity|].
  intros (results & w' & H). apply (f_equal fst) in H.
  vm_compute in H. discriminate.
Qed.

(** C9, amended.  For a range whose commands are all data bytes (0..127):
    when no probe is answered by a SysEx message, [scan_commands] runs
    through the whole range: it sends one probe per command, returns one
    entry per command in range order, each with an empty response list,
    and none of them counts as responding. *)
Theorem scan_commands_all_unanswered (start stop : Z) (w : World) :
  seven_bit (Py.range start (stop + 1)) ->
  Forall silent (inbox w) ->
  exists results w',
    scan_commands start stop w = (Ok results, w')
    /\ results = map no_answer (Py.range start (stop + 1))
    /\ map cmd results = Py.range start (stop + 1)
    /\ Forall (fun r => responses r = []) results
    /\ responding results = []
    /\ sent w' = sent w ++ map (fun c => Sysex (SYSEX_PREFIX ++ [c]))
                               (Py.range start (stop + 1)).
Proof.
  intros H7 Hs. unfold scan_commands.
  unfold bind at 1. rewrite print_run.
  unfold bind at 1. rewrite print_run.
  set (w2 := printed (printed w _) _).
  assert (Hs2 : Forall silent (inbox w2)) by exact Hs.
  destruct (scan_loop_silent (Py.range start (stop + 1)) H7 [] w2 Hs2)
    as (w' & E & Hsent).
  exists (map no_answer (Py.range start (stop + 1))), w'.
  split; [exact E|]. split; [reflexivity|]. split; [|split; [|split]].
  - rewrite map_map. simpl. apply map_id.
  - apply Forall_forall. intros r Hr. apply in_map_iff in Hr.
    destruct Hr as (c & <- & _). reflexivity.
  - apply responding_no_answer.
  - rewrite Hsent. unfold w2. now rewrite !sent_printed.
Qed.

Lemma scan_commands_all_unanswered_witness :
  exists results w',
    scan_commands 0x00 0x7F quiet = (Ok results, w')
    /\ results = map no_answer (Py.range 0x00 (0x7F + 1))
    /\ map cmd results = Py.range 0x00 (0x7F + 1)
    /\ Forall (fun r => responses r = []) results
    /\ responding results = []
    /\ sent w' = sent quiet ++ map (fun c => Sysex (SYSEX_PREFIX ++ [c]))
                                   (Py.range 0x00 (0x7F + 1)).
Proof.
  apply (scan_commands_all_unanswered 0x00 0x7F quiet).
  - apply seven_bit_check. reflexivity.
  - unfold quiet, silent. simpl.
    repeat constructor; intros d H; simpl in H;
      repeat (destruct H as [H|H]; [discriminate|]); exact H.
Defined.

End ScannerTheorems.

(** ** Response classifier *)

Section Classifier.

Import Scan.

Lemma range_cons (a b : Z) : a < b -> Py.range a b = a :: Py.range (a + 1) b.
Proof.
  intros H. unfold Py.range.
  replace (Z.to_nat (b - a)) with (S (Z.to_nat (b - (a + 1)))) by lia.
  simpl. f_equal; [lia|].
  rewrite <- seq_shift, map_map. apply map_ext. intros j. lia.
Qed.

Lemma chars_from_nil (k : Z) : chars_from k [] = [].
Proof.
  unfold chars_from, Py.range, Py.len. simpl.
  replace (Z.to_nat (k + 0 - k)) with O by lia. reflexivity.
Qed.

Lemma chars_from_cons (k b : Z) (rest : list Z) :
  chars_from k (b :: rest)
    = (if printable b then [(k, Py.chr b)] else []) ++ chars_from (k + 1) rest.
Proof.
  unfold chars_from.
  rewrite range_cons by (unfold Py.len; simpl; lia).
  replace (k + Py.len (b :: rest)) with (k + 1 + Py.len rest)
    by (unfold Py.len; simpl; lia).
  simpl. unfold printable. destruct ((32 <=? b) && (b <? 127)); reflexivity.
Qed.

Lemma ascii_chars_from (response : list Z) :
  ascii_chars response = chars_from 0 response.
Proof. reflexivity. Qed.

Lemma long_ones_app (a b : list (list ascii)) :
  long_ones (a ++ b) = long_ones a ++ long_ones b.
Proof. unfold long_ones. now rewrite filter_app, map_app. Qed.

Lemma long_ones_cons (r : list ascii) (rs : list (list ascii)) :
  long_ones (r :: rs) = long_ones [r] ++ long_ones rs.
Proof. apply (long_ones_app [r] rs). Qed.

Lemma long_ones_single (r : list ascii) :
  long_ones [r] = if 4 <=? Py.len r then [Py.string_of_chars r] else [].
Proof. unfold long_ones. simpl. destruct (4 <=? Py.len r); reflexivity. Qed.

Lemma finish_pair (runs : list string) (cur : list ascii) :
  finish (runs, cur) = runs ++ long_ones [cur].
Proof.
  unfold finish. rewrite long_ones_single.
  destruct (4 <=? Py.len cur); [reflexivity | now rewrite app_nil_r].
Qed.

(** The loop against the wording.  At offset [k] either the previous byte
    was printable and sits at the end of [cur] ([last_i = k - 1]), or the
    run in [cur] is over and waits for its flush ([last_i < k - 1]). *)
Lemma run_loop_refines (response : list Z) :
  forall (k : Z) (runs : list string) (cur : list ascii) (last_i : Z),
  (last_i = k - 1 ->
     finish (run_loop (chars_from k response) runs cur last_i)
       = runs ++ long_ones (maximal_runs response cur))
  /\ (last_i < k - 1 ->
     finish (run_loop (chars_from k response) runs cur last_i)
       = runs ++ long_ones [cur] ++ long_ones (maximal_runs response [])).
Proof.
  induction response as [|b rest IH]; intros k runs cur last_i.
  - rewrite chars_from_nil. simpl run_loop. rewrite finish_pair. simpl maximal_runs.
    split; intros _; [reflexivity|].
    change (long_ones [[]]) with (@nil string). now rewrite app_nil_r.
  - rewrite chars_from_cons. simpl maximal_runs.
    destruct (printable b) eqn:Eb.
    + simpl app. simpl run_loop. split; intros Hk.
      * replace (k =? last_i + 1) with true by (symmetry; apply Z.eqb_eq; lia).
        apply (proj1 (IH (k + 1) runs (cur ++ [Py.chr b]) k)). lia.
      * replace (k =? last_i + 1) with false by (symmetry; apply Z.eqb_neq; lia).
        rewrite (proj1 (IH (k + 1) _ [Py.chr b] k)) by lia.
        rewrite long_ones_single.
        destruct (4 <=? Py.len cur); simpl; now rewrite <- ?app_assoc, ?app_nil_r.
    + simpl app. split; intros Hk.
      * rewrite (proj2 (IH (k + 1) runs cur last_i)) by lia.
        now rewrite (long_ones_cons cur (maximal_runs rest [])).
      * rewrite (proj2 (IH (k + 1) runs cur last_i)) by lia.
        rewrite (long_ones_cons [] (maximal_runs rest [])).
        change (long_ones [[]]) with (@nil string). reflexivity.
Qed.

Lemma ascii_runs_refines (response : list Z) :
  ascii_runs response = text_runs response.
Proof.
  change (ascii_runs response)
    with (finish (run_loop (ascii_chars response) [] [] (-2))).
  rewrite ascii_chars_from.
  rewrite (proj2 (run_loop_refines response 0 [] [] (-2))) by lia.
  reflexivity.
Qed.

End Classifier.

Section ClassifierNotes.

Import Scan.

Lemma run_bound (response : list Z) :
  forall (cur : list ascii) (k : Z),
  Forall (fun r => (List.length r
                    <= List.length cur + List.length (chars_from k response))%nat)
         (maximal_runs response cur).
Proof.
  induction response as [|b rest IH]; intros cur k.
  - simpl. constructor; [lia | constructor].
  - simpl. rewrite chars_from_cons. destruct (printable b).
    + specialize (IH (cur ++ [Py.chr b]) (k + 1)).
      eapply Forall_impl; [|exact IH].
      intros r Hr. rewrite length_app in Hr. simpl in *. lia.
    + constructor; [lia|].
      specialize (IH [] (k + 1)). eapply Forall_impl; [|exact IH].
      intros r Hr. simpl in *. lia.
Qed.

Lemma few_printables (response : list Z) :
  (4 <=? Py.len (ascii_chars response)) = false -> text_runs response = [].
Proof.
  intros H. apply Z.leb_gt in H.
  unfold text_runs, long_ones.
  pose proof (run_bound response [] 0) as Hb.
  rewrite <- ascii_chars_from in Hb.
  induction (maximal_runs response []) as [|r rs IHr]; [reflexivity|].
  inversion Hb as [|? ? Hr Hrs]; subst. simpl.
  replace (4 <=? Py.len r) with false.
  - now apply IHr.
  - symmetry. apply Z.leb_gt. unfold Py.len in *. simpl in Hr. lia.
Qed.

Lemma flag_notes_no_ascii (response : list Z) (notes : list string) :
  filter is_ascii_note (flag_notes response notes)
    = filter is_ascii_note notes.
Proof.
  unfold flag_notes.
  generalize (Py.range 0 (Py.len response - 5)). intros offsets.
  revert notes. induction offsets as [|i rest IH]; intros notes.
  - reflexivity.
  - cbn [fold_left]. rewrite IH.
    destruct (forallb (fun b => Py.mem b [0; 1]) (Py.slice response i (i + 6))).
    + rewrite filter_app. apply app_nil_r.
    + reflexivity.
Qed.

(** What [analyze_response] says about text: one note listing the runs, or
    none when there is no run. *)
Lemma ascii_notes_of_analysis (c : Z) (response : list Z) :
  filter is_ascii_note (analyze_response c response)
    = match text_runs response with
      | [] => []
      | runs => ["ASCII: " ^^ Py.repr_strs runs]
      end.
Proof.
  unfold analyze_response.
  destruct response as [|b rest]; [reflexivity|].
  set (response := b :: rest).
  set (notes1 := if 3 <? Py.len response then _ else _).
  assert (H1 : filter is_ascii_note notes1 = []).
  { unfold notes1. destruct (3 <? Py.len response); [|reflexivity].
    destruct (nth 3 response 0 =? c - 1); [reflexivity|].
    destruct (nth 3 response 0 =? c); reflexivity. }
  destruct (4 <=? Py.len (ascii_chars response)) eqn:E.
  - rewrite ascii_runs_refines.
    destruct (text_runs response) as [|r rs].
    + now rewrite flag_notes_no_ascii.
    + rewrite filter_app, flag_notes_no_ascii, H1.
      cbn [filter app]. unfold is_ascii_note at 1.
      now rewrite prefix_append.
  - rewrite flag_notes_no_ascii, H1. now rewrite (few_printables _ E).
Qed.

Example classify_hello :
  analyze_response 0x29
    ([0x52; 0; 0x59; 0x28; 0] ++ [104; 101; 108; 108; 111] ++ [0]
     ++ [97; 98; 99] ++ [0; 1])
  = ["resp_cmd=0x28 (req-1)"; "ASCII: ['hello']"].
Proof. reflexivity. Qed.

Example classify_two_runs_one_note :
  analyze_response 0x10 [0; 65; 66; 67; 68; 0; 119; 120; 121; 122; 0]
  = ["resp_cmd=0x43"; "ASCII: ['ABCD', 'wxyz']"].
Proof. reflexivity. Qed.

Example classify_lone_run_of_four :
  analyze_response 0x10 [65; 66; 67; 68]
  = ["resp_cmd=0x44"; "ASCII: ['ABCD']"].
Proof. reflexivity. Qed.

Example classify_header_joins_run :
  analyze_response 0x29 [0x52; 0; 0x59; 0x28; 104; 101; 108; 108; 111]
  = ["resp_cmd=0x28 (req-1)"; "ASCII: ['Y(hello']"].
Proof. reflexivity. Qed.

End ClassifierNotes.

Section ClassifierTheorems.

Import Scan.

Lemma maximal_runs_split (l1 l2 : list Z) (x : Z) :
  printable x = false ->
  forall cur,
  maximal_runs (l1 ++ x :: l2) cur = maximal_runs l1 cur ++ maximal_runs l2 [].
Proof.
  intros Hx. induction l1 as [|b l1 IH]; intros cur; simpl.
  - now rewrite Hx.
  - destruct (printable b); [apply IH | now rewrite IH].
Qed.

Lemma maximal_runs_printable (l : list Z) :
  Forall (fun b => printable b = true) l ->
  forall cur, maximal_runs l cur = [cur ++ map Py.chr l].
Proof.
  induction 1 as [|b l Hb Hl IH]; intros cur; simpl.
  - now rewrite app_nil_r.
  - rewrite Hb, IH, <- app_assoc. reflexivity.
Qed.

Lemma runs_after_prefix (pre rest : list Z) :
  ends_unprintable pre = true ->
  long_ones (maximal_runs (pre ++ rest) [])
    = text_runs pre ++ long_ones (maximal_runs rest []).
Proof.
  unfold ends_unprintable, text_runs. intros H.
  destruct (rev pre) as [|x before] eqn:E.
  - apply (f_equal (@rev Z)) in E. rewrite rev_involutive in E. subst pre.
    reflexivity.
  - apply (f_equal (@rev Z)) in E. rewrite rev_involutive in E. subst pre.
    simpl rev. apply negb_true_iff in H.
    rewrite <- app_assoc. simpl app.
    rewrite !(maximal_runs_split _ _ _ H), !long_ones_app.
    change (long_ones (maximal_runs [] [])) with (@nil string).
    now rewrite app_nil_r.
Qed.

Lemma runs_before_suffix (body post : list Z) (cur : list ascii) :
  Forall (fun b => printable b = true) body ->
  starts_unprintable post = true ->
  long_ones (maximal_runs (body ++ post) cur)
    = long_ones [cur ++ map Py.chr body] ++ text_runs post.
Proof.
  intros Hbody Hpost. destruct post as [|y post'].
  - rewrite app_nil_r, (maximal_runs_printable _ Hbody).
    change (text_runs []) with (@nil string). now rewrite app_nil_r.
  - simpl in Hpost. apply negb_true_iff in Hpost.
    rewrite (maximal_runs_split _ _ _ Hpost), long_ones_app.
    rewrite (maximal_runs_printable _ Hbody).
    unfold text_runs. simpl maximal_runs. rewrite Hpost.
    rewrite (long_ones_cons [] (maximal_runs post' [])). reflexivity.
Qed.

Lemma maximal_runs_grow (body : list Z) :
  Forall (fun b => printable b = true) body ->
  forall rest cur,
  maximal_runs (body ++ rest) cur = maximal_runs rest (cur ++ map Py.chr body).
Proof.
  induction 1 as [|b body Hb Hbody IH]; intros rest cur; simpl.
  - now rewrite app_nil_r.
  - rewrite Hb, IH, <- app_assoc. reflexivity.
Qed.

Lemma pending_run_survives (rest : list Z) :
  forall cur,
  Exists (fun r => (List.length cur <= List.length r)%nat)
         (maximal_runs rest cur).
Proof.
  induction rest as [|b rest IH]; intros cur; simpl.
  - now constructor.
  - destruct (printable b).
    + specialize (IH (cur ++ [Py.chr b])).
      eapply Exists_impl; [|exact IH].
      intros r Hr. rewrite length_app in Hr. simpl in Hr. lia.
    + now constructor.
Qed.

Lemma run_inside_survives (run post : list Z) (n : nat) :
  Forall (fun b => printable b = true) run -> List.length run = n ->
  forall pre cur,
  Exists (fun r => (n <= List.length r)%nat)
         (maximal_runs (pre ++ run ++ post) cur).
Proof.
  intros Hrun Hn. induction pre as [|b pre IH]; intros cur.
  - simpl app. rewrite (maximal_runs_grow _ Hrun).
    pose proof (pending_run_survives post (cur ++ map Py.chr run)) as H.
    eapply Exists_impl; [|exact H].
    intros r Hr. rewrite length_app, length_map in Hr. lia.
  - simpl. destruct (printable b); [apply IH|].
    apply Exists_cons_tl. apply IH.
Qed.

Lemma long_ones_nonempty (runs : list (list ascii)) :
  Exists (fun r => (4 <= List.length r)%nat) runs -> long_ones runs <> [].
Proof.
  unfold long_ones. induction 1 as [r rs Hr | r rs Hrs IH]; simpl.
  - replace (4 <=? Py.len r) with true; [discriminate|].
    symmetry. apply Z.leb_le. unfold Py.len. lia.
  - destruct (4 <=? Py.len r); [discriminate | exact IH].
Qed.

(** C8.  The text heuristic of [analyze_response] finds exactly the maximal
    runs of printable bytes (32..126) at consecutive offsets that are at
    least four long, for any frame [any]: the notes of [any] hold one
    ASCII note listing exactly those runs when there is such a run, and no
    ASCII note otherwise.  A frame that contains a printable run of five,
    an unprintable byte and a printable run of three gets exactly one
    ASCII note; when the two runs are not lengthened by their neighbours,
    that note lists the run of five and not the run of three. *)
Theorem ascii_run_detection
    (c : Z) (any pre run5 run3 post : list Z) (np : Z) :
  Forall (fun b => printable b = true) run5 -> List.length run5 = 5%nat ->
  printable np = false ->
  Forall (fun b => printable b = true) run3 -> List.length run3 = 3%nat ->
  let response := pre ++ run5 ++ [np] ++ run3 ++ post in
  ascii_runs any = text_runs any
  /\ filter is_ascii_note (analyze_response c any)
     = match text_runs any with
       | [] => []
       | runs => ["ASCII: " ^^ Py.repr_strs runs]
       end
  /\ List.length (filter is_ascii_note (analyze_response c response)) = 1%nat
  /\ filter is_ascii_note (analyze_response c response)
     = ["ASCII: " ^^ Py.repr_strs (ascii_runs response)]
  /\ (ends_unprintable pre = true -> starts_unprintable post = true ->
      ascii_runs response
      = text_runs pre ++ [Py.string_of_chars (map Py.chr run5)]
        ++ text_runs post).
Proof.
  intros H5 L5 Hnp H3 L3 response.
  assert (Hsome : text_runs response <> []).
  { apply long_ones_nonempty. unfold response.
    pose proof (run_inside_survives run5 ([np] ++ run3 ++ post) 5 H5 L5 pre [])
      as H.
    eapply Exists_impl; [|exact H]. intros r Hr. cbv beta in *. lia. }
  assert (Hnotes : filter is_ascii_note (analyze_response c response)
                   = ["ASCII: " ^^ Py.repr_strs (ascii_runs response)]).
  { rewrite ascii_notes_of_analysis, ascii_runs_refines.
    destruct (text_runs response); [congruence | reflexivity]. }
  split; [apply ascii_runs_refines|].
  split; [apply ascii_notes_of_analysis|].
  split; [now rewrite Hnotes|].
  split; [exact Hnotes|].
  intros Hpre Hpost. rewrite ascii_runs_refines.
  unfold response, text_runs at 1.
  rewrite (runs_after_prefix _ _ Hpre). f_equal.
  simpl app. rewrite (maximal_runs_split _ _ _ Hnp), long_ones_app.
  rewrite (maximal_runs_printable _ H5).
  rewrite (runs_before_suffix _ _ [] H3 Hpost).
  rewrite !long_ones_single. simpl app.
  unfold Py.len. rewrite !length_map, L5, L3. reflexivity.
Qed.

Lemma ascii_run_detection_witness :
  let response :=
    [0x52; 0; 0x59; 0x28; 0] ++ [104; 101; 108; 108; 111] ++ [0]
    ++ [97; 98; 99] ++ [0; 1] in
  ascii_runs [1; 65; 66; 67; 68; 2] = text_runs [1; 65; 66; 67; 68; 2]
  /\ filter is_ascii_note (analyze_response 0x29 [1; 65; 66; 67; 68; 2])
     = match text_runs [1; 65; 66; 67; 68; 2] with
       | [] => []
       | runs => ["ASCII: " ^^ Py.repr_strs runs]
       end
  /\ List.length (filter is_ascii_note (analyze_response 0x29 response))
     = 1%nat
  /\ filter is_ascii_note (analyze_response 0x29 response)
     = ["ASCII: " ^^ Py.repr_strs (ascii_runs response)]
  /\ ascii_runs response
     = text_runs [0x52; 0; 0x59; 0x28; 0]
       ++ [Py.string_of_chars (map Py.chr [104; 101; 108; 108; 111])]
       ++ text_runs [0; 1].
Proof.
  assert (H5 : Forall (fun b => printable b = true) [104; 101; 108; 108; 111])
    by (repeat constructor).
  assert (H3 : Forall (fun b => printable b = true) [97; 98; 99])
    by (repeat constructor).
  destruct (ascii_run_detection 0x29 [1; 65; 66; 67; 68; 2]
              [0x52; 0; 0x59; 0x28; 0] [104; 101; 108; 108; 111]
              [97; 98; 99] [0; 1] 0 H5 eq_refl eq_refl H3 eq_refl)
    as (Ha & Hn & Hb & Hc & Hd).
  split; [exact Ha|]. split; [exact Hn|].
  split; [exact Hb|]. split; [exact Hc|].
  apply Hd; reflexivity.
Defined.

End ClassifierTheorems.

(** * Further properties *)

(** ** Numeric codec, continued *)

Section CodecFields.

(** X1.  Both seven-bit fields can be read back from a decoded value: the
    remainder modulo 128 is the masked low byte and the quotient by 128 is
    the masked high byte, so two byte pairs decode alike only when they
    agree on their low seven bits. *)
Theorem decode_14bit_fields (low high low' high' : Z) :
  decode_14bit low high mod 128 = Z.land low 0x7F
  /\ decode_14bit low high / 128 = Z.land high 0x7F
  /\ (decode_14bit low high = decode_14bit low' high' <->
      Z.land low 0x7F = Z.land low' 0x7F
      /\ Z.land high 0x7F = Z.land high' 0x7F).
Proof.
  assert (Hfields : forall l h,
             decode_14bit l h mod 128 = Z.land l 0x7F
             /\ decode_14bit l h / 128 = Z.land h 0x7F).
  { intros l h. rewrite decode_14bit_arith, !land_7F.
    pose proof (Z.mod_pos_bound l 128). pose proof (Z.mod_pos_bound h 128).
    replace (l mod 128 + 128 * (h mod 128))
      with (l mod 128 + (h mod 128) * 128) by lia.
    split.
    - rewrite Z.mod_add by lia. apply Z.mod_small. lia.
    - rewrite Z.div_add by lia.
      rewrite (Z.div_small (l mod 128)) by lia. lia. }
  destruct (Hfields low high) as [Hm Hd].
  split; [exact Hm|]. split; [exact Hd|]. split.
  - intros E. destruct (Hfields low' high') as [Hm' Hd'].
    rewrite <- Hm, <- Hd, <- Hm', <- Hd', E. split; reflexivity.
  - intros [El Eh]. unfold decode_14bit. now rewrite El, Eh.
Qed.

End CodecFields.

(** ** Patch layout decoder, continued *)

Section DecoderOutcomes.

Lemma all_bytes_dec (data : list Z) : all_bytes data \/ ~ all_bytes data.
Proof.
  destruct (forallb (fun b => (0 <=? b) && (b <? 256)) data) eqn:E.
  - left. now apply all_bytes_check.
  - right. intros H. pose proof (bytes_ok data idle H) as Hb.
    unfold bytes in Hb. rewrite E in Hb. discriminate.
Qed.

Lemma parse_non_bytes (data : list Z) (w : World) :
  long_enough data -> prefix_ok data -> tag_ok data -> ~ all_bytes data ->
  parse_patch_data data w = (Raise ValueError, w).
Proof.
  intros Hlen Hpre Htag Hbytes. unfold parse_patch_data.
  rewrite (nonempty_of_long _ Hlen).
  rewrite ltb_false by exact Hlen.
  unfold prefix_ok in Hpre. rewrite Hpre.
  change (negb (Py.list_eqb SYSEX_PREFIX SYSEX_PREFIX)) with false.
  change (false || false) with false. cbv beta iota.
  unfold bind at 1.
  rewrite getitem_ok by (unfold long_enough in Hlen; lia).
  unfold tag_ok in Htag. rewrite Htag.
  change (negb (40 =? 40)) with false. cbv beta iota.
  unfold bind at 1. unfold bytes.
  destruct (forallb (fun b => (0 <=? b) && (b <? 256)) data) eqn:E.
  - elim Hbytes. now apply all_bytes_check.
  - reflexivity.
Qed.

(** Every way a call can end. *)
Lemma parse_patch_data_cases (data : list Z) (w : World) :
  (exists line, parse_patch_data data w = (Ok None, printed w line))
  \/ (parse_patch_data data w = (Ok (Some (full_patch data)), w)
      /\ long_enough data /\ prefix_ok data /\ tag_ok data /\ all_bytes data)
  \/ (parse_patch_data data w = (Raise ValueError, w)
      /\ long_enough data /\ prefix_ok data /\ tag_ok data
      /\ ~ all_bytes data).
Proof.
  destruct (long_enough_dec data) as [H1|H1].
  - destruct (prefix_ok_dec data) as [H2|H2].
    + destruct (tag_ok_dec data) as [H3|H3].
      * destruct (all_bytes_dec data) as [H4|H4].
        -- right. left. split; [now apply parse_patch_data_full | tauto].
        -- right. right. split; [now apply parse_non_bytes | tauto].
      * left. eexists. apply (parse_bad_tag _ _ H1 H2 H3).
    + left. eexists. apply (parse_bad_prefix _ _ H1 H2).
  - left. eexists. apply (parse_too_short _ _ H1).
Qed.

Lemma parse_success_inv (data : list Z) (w w' : World) (p : PatchData) :
  parse_patch_data data w = (Ok (Some p), w') ->
  p = full_patch data /\ w' = w
  /\ long_enough data /\ prefix_ok data /\ tag_ok data /\ all_bytes data.
Proof.
  intros H.
  destruct (parse_patch_data_cases data w)
    as [(line & E) | [(E & Hc) | (E & _)]]; rewrite E in H.
  - discriminate.
  - injection H as <- <-. tauto.
  - discriminate.
Qed.

(** X2.  A call of [parse_patch_data] ends in one of three ways: [None]
    after exactly one printed line; the snapshot, with nothing printed; or
    a [ValueError] from [bytes(data)], with nothing printed, which happens
    exactly when the three checks pass and some element is not in 0..255.
    It never raises an [IndexError]: every indexing is covered by the
    length check. *)
Theorem parse_patch_data_outcomes (data : list Z) (w : World) :
  ((exists line, parse_patch_data data w = (Ok None, printed w line))
   \/ parse_patch_data data w = (Ok (Some (full_patch data)), w)
   \/ parse_patch_data data w = (Raise ValueError, w))
  /\ (fst (parse_patch_data data w) = Raise ValueError <->
      long_enough data /\ prefix_ok data /\ tag_ok data /\ ~ all_bytes data)
  /\ fst (parse_patch_data data w) <> Raise IndexError.
Proof.
  destruct (parse_patch_data_cases data w)
    as [(line & E) | [(E & Hc) | (E & Hc)]]; rewrite E; simpl fst.
  - split; [left; now exists line|]. split; [|discriminate].
    split; [discriminate|]. intros (H1 & H2 & H3 & H4).
    destruct (all_bytes_dec data) as [H|H]; [tauto|].
    rewrite (parse_non_bytes _ w H1 H2 H3 H4) in E. discriminate.
  - split; [right; now left|]. split; [|discriminate].
    split; [discriminate | tauto].
  - split; [right; now right|]. split; [|discriminate].
    split; [tauto | reflexivity].
Qed.

(** X3.  A returned snapshot keeps the frame it came from, and decoding
    [raw_data] again gives the same snapshot: what the [info] command
    caches, the [parse] command decodes to the same patch. *)
Theorem parse_patch_data_reparse
    (data : list Z) (w w' w2 : World) (p : PatchData) :
  parse_patch_data data w = (Ok (Some p), w') ->
  raw_data p = data /\ w' = w
  /\ parse_patch_data (raw_data p) w2 = (Ok (Some p), w2).
Proof.
  intros H. apply parse_success_inv in H.
  destruct H as (-> & -> & H1 & H2 & H3 & H4).
  split; [reflexivity|]. split; [reflexivity|].
  now apply parse_patch_data_full.
Qed.

Lemma parse_patch_data_reparse_witness :
  raw_data (full_patch sample_dump) = sample_dump /\ idle = idle
  /\ parse_patch_data (raw_data (full_patch sample_dump)) answering
     = (Ok (Some (full_patch sample_dump)), answering).
Proof.
  apply (parse_patch_data_reparse sample_dump idle idle answering).
  reflexivity.
Defined.

End DecoderOutcomes.

Lemma parse_patch_data_outcomes_witness :
  fst (parse_patch_data (SYSEX_PREFIX ++ [0x28] ++ repeat 300 96) idle)
    = Raise ValueError.
Proof.
  apply (parse_patch_data_outcomes
           (SYSEX_PREFIX ++ [0x28] ++ repeat 300 96) idle).
  split; [unfold long_enough, Py.len; simpl; lia|].
  split; [reflexivity|]. split; [reflexivity|].
  intros H. unfold all_bytes in H. rewrite Forall_forall in H.
  specialize (H 300). simpl in H.
  assert (0 <= 300 < 256) by (apply H; tauto). lia.
Defined.

Section PatchName.

Lemma name_char_chr (b : Z) :
  (32 <=? b) && (b <? 127) = true -> name_char (Py.chr b).
Proof.
  intros H. apply andb_prop in H. destruct H as [H1 H2].
  apply Z.leb_le in H1. apply Z.ltb_lt in H2.
  unfold name_char, Py.chr. rewrite nat_ascii_embedding by lia. lia.
Qed.

Lemma name_loop_chars (name_bytes : list Z) :
  forall acc, Forall name_char acc -> Forall name_char (name_loop name_bytes acc).
Proof.
  induction name_bytes as [|b rest IH]; intros acc Hacc; simpl; [exact Hacc|].
  destruct (b =? 0); [exact Hacc|].
  destruct ((32 <=? b) && (b <? 127)) eqn:E; [|now apply IH].
  apply IH. apply Forall_app. split; [exact Hacc|].
  constructor; [now apply name_char_chr | constructor].
Qed.

Lemma name_loop_length (name_bytes : list Z) :
  forall acc,
  (List.length (name_loop name_bytes acc)
   <= List.length acc + List.length name_bytes)%nat.
Proof.
  induction name_bytes as [|b rest IH]; intros acc; simpl; [lia|].
  destruct (b =? 0); [lia|].
  destruct ((32 <=? b) && (b <? 127)).
  - specialize (IH (acc ++ [Py.chr b])). rewrite length_app in IH.
    simpl in IH. lia.
  - specialize (IH acc). lia.
Qed.

Lemma chars_of_string_of_chars (l : list ascii) :
  chars_of (Py.string_of_chars l) = l.
Proof. induction l as [|c l IH]; simpl; [reflexivity | now rewrite IH]. Qed.

Lemma length_chars_of (s : string) :
  List.length (chars_of s) = String.length s.
Proof. induction s as [|c s IH]; simpl; [reflexivity | now rewrite IH]. Qed.

Lemma lstrip_chars (P : ascii -> Prop) (s : string) :
  Forall P (chars_of s) -> Forall P (chars_of (Py.lstrip s)).
Proof.
  induction s as [|c s IH]; simpl; intros H; [exact H|].
  destruct (Py.is_space c); [|exact H].
  apply IH. now inversion H.
Qed.

Lemma rstrip_chars (P : ascii -> Prop) (s : string) :
  Forall P (chars_of s) -> Forall P (chars_of (Py.rstrip s)).
Proof.
  induction s as [|c s IH]; simpl; intros H; [exact H|].
  inversion H as [|? ? Hc Hs]; subst. specialize (IH Hs).
  destruct (Py.rstrip s) as [|d r].
  - destruct (Py.is_space c); simpl; [constructor|].
    constructor; [exact Hc | constructor].
  - simpl. constructor; [exact Hc | exact IH].
Qed.

Lemma lstrip_length (s : string) :
  (String.length (Py.lstrip s) <= String.length s)%nat.
Proof.
  induction s as [|c s IH]; simpl; [lia|].
  destruct (Py.is_space c); simpl; lia.
Qed.

Lemma rstrip_length (s : string) :
  (String.length (Py.rstrip s) <= String.length s)%nat.
Proof.
  induction s as [|c s IH]; simpl; [lia|].
  destruct (Py.rstrip s) as [|d r].
  - destruct (Py.is_space c); simpl; lia.
  - simpl in *. lia.
Qed.

Lemma rstrip_idem (s : string) : Py.rstrip (Py.rstrip s) = Py.rstrip s.
Proof.
  induction s as [|c s IH]; simpl; [reflexivity|].
  destruct (Py.rstrip s) as [|d r] eqn:E.
  - destruct (Py.is_space c) eqn:Ec; simpl; [reflexivity|].
    now rewrite Ec.
  - change (Py.rstrip (String c (String d r)))
      with (match Py.rstrip (String d r) with
            | EmptyString =>
                if Py.is_space c then EmptyString else String c EmptyString
            | q => String c q
            end).
    now rewrite IH.
Qed.

(** Stripped text is left alone by a second strip. *)
Lemma strip_idem (s : string) : Py.strip (Py.strip s) = Py.strip s.
Proof.
  unfold Py.strip.
  assert (Hhead : Py.lstrip (Py.rstrip (Py.lstrip s)) = Py.rstrip (Py.lstrip s)).
  { assert (Ht : Py.lstrip s = EmptyString
                 \/ exists c t, Py.lstrip s = String c t
                                /\ Py.is_space c = false).
    { induction s as [|c s IH]; simpl; [now left|].
      destruct (Py.is_space c) eqn:Ec; [exact IH|].
      right. now exists c, s. }
    destruct Ht as [->|(c & t & -> & Hc)]; [reflexivity|].
    cbn [Py.rstrip]. destruct (Py.rstrip t);
      rewrite ?Hc; cbn [Py.lstrip]; rewrite ?Hc; reflexivity. }
  rewrite Hhead. apply rstrip_idem.
Qed.

Lemma slice_length_le (data : list Z) (a b : Z) :
  (List.length (Py.slice data a b) <= Z.to_nat b - Z.to_nat a)%nat.
Proof. unfold Py.slice. rewrite length_firstn. lia. Qed.

Lemma name_of_shape (data : list Z) :
  (String.length (name_of data) <= 11)%nat
  /\ Forall name_char (chars_of (name_of data))
  /\ Py.strip (name_of data) = name_of data.
Proof.
  unfold name_of. destruct (107 <? Py.len data).
  - split; [|split].
    + unfold Py.strip.
      eapply Nat.le_trans; [apply rstrip_length|].
      eapply Nat.le_trans; [apply lstrip_length|].
      rewrite <- length_chars_of, chars_of_string_of_chars.
      eapply Nat.le_trans; [apply name_loop_length|].
      pose proof (slice_length_le data 96 107). simpl in *. lia.
    + unfold Py.strip. apply rstrip_chars, lstrip_chars.
      rewrite chars_of_string_of_chars.
      apply name_loop_chars. constructor.
    + apply strip_idem.
  - split; [simpl; lia|]. split; [constructor | reflexivity].
Qed.

(** X4.  The name of a decoded patch is at most eleven characters long,
    consists of printable ASCII only, and carries no leading or trailing
    white space. *)
Theorem patch_name_shape (data : list Z) (w w' : World) (p : PatchData) :
  parse_patch_data data w = (Ok (Some p), w') ->
  (String.length (patch_name p) <= 11)%nat
  /\ Forall name_char (chars_of (patch_name p))
  /\ Py.strip (patch_name p) = patch_name p.
Proof.
  intros H. apply parse_success_inv in H. destruct H as (-> & _).
  apply name_of_shape.
Qed.

Lemma patch_name_shape_witness :
  (String.length (patch_name (full_patch sample_dump)) <= 11)%nat
  /\ Forall name_char (chars_of (patch_name (full_patch sample_dump)))
  /\ Py.strip (patch_name (full_patch sample_dump))
     = patch_name (full_patch sample_dump).
Proof.
  apply (patch_name_shape sample_dump idle idle). reflexivity.
Defined.

End PatchName.

Section PatchFields.

Lemma skipn_nth (n : nat) :
  forall l : list Z,
  (n < List.length l)%nat -> skipn n l = nth n l 0 :: skipn (S n) l.
Proof.
  induction n as [|n IH]; intros [|x l] H; simpl in *; try lia.
  - reflexivity.
  - apply IH. lia.
Qed.

Lemma byte_at_Forall (P : Z -> Prop) (data : list Z) (k : Z) :
  Forall P data -> 0 <= k < Py.len data -> P (byte_at data k).
Proof.
  intros HP Hk. rewrite Forall_forall in HP. apply HP.
  unfold byte_at. apply nth_In. unfold Py.len in Hk. lia.
Qed.

(** X5.  The name is read only from frames of at least 108 bytes, although
    100 bytes pass validation and the name field ends at offset 106: a
    shorter valid frame decodes with an empty name.  A zero byte at offset
    96 gives an empty name as well. *)
Theorem patch_name_empty (data : list Z) (w w' : World) (p : PatchData) :
  parse_patch_data data w = (Ok (Some p), w') ->
  Py.len data <= 107 \/ byte_at data 96 = 0 ->
  patch_name p = "".
Proof.
  intros H Hc. apply parse_success_inv in H. destruct H as (-> & _).
  unfold full_patch, name_of. cbn [patch_name].
  destruct (Z.ltb_spec 107 (Py.len data)) as [Hlong|Hshort]; [|reflexivity].
  destruct Hc as [Hc|Hc]; [lia|].
  unfold Py.slice.
  change (Z.to_nat 107 - Z.to_nat 96)%nat with 11%nat.
  rewrite (skipn_nth (Z.to_nat 96) data) by (unfold Py.len in Hlong; lia).
  unfold byte_at in Hc. rewrite Hc. reflexivity.
Qed.

Lemma patch_name_empty_witness :
  patch_name (full_patch (SYSEX_PREFIX ++ [0x28] ++ repeat 65 103)) = "".
Proof.
  apply (patch_name_empty (SYSEX_PREFIX ++ [0x28] ++ repeat 65 103) idle idle).
  - reflexivity.
  - left. unfold Py.len. simpl. lia.
Defined.

Lemma knob2_of_bounds (data : list Z) (i : Z) :
  long_enough data -> all_bytes data -> 0 <= i < 6 ->
  0 <= knob2_of data i <= 16383
  /\ (seven_bit data -> i <> 1 -> i <> 2 -> knob2_of data i <= 127).
Proof.
  unfold long_enough. intros Hlen Hbytes Hi.
  assert (Hdec : forall a b, 0 <= decode_14bit a b <= 16383).
  { intros a b. rewrite decode_14bit_arith.
    pose proof (Z.mod_pos_bound a 128). pose proof (Z.mod_pos_bound b 128).
    lia. }
  assert (Hc : i = 0 \/ i = 1 \/ i = 2 \/ i = 3 \/ i = 4 \/ i = 5) by lia.
  destruct Hc as [->|[->|[->|[->|[->| ->]]]]]; unfold knob2_of;
    cbn [Z.eqb Pos.eqb orb];
    match goal with
    | |- context [decode_14bit ?a ?b] =>
        split; [apply Hdec | intros _ H1 H2; congruence]
    | |- context [byte_at data ?k] =>
        let k' := eval vm_compute in k in
        change k with k';
        split;
        [ pose proof (byte_at_Forall _ data k' Hbytes ltac:(lia)) as Hb;
          cbv beta in Hb; lia
        | intros H7 _ _;
          pose proof (byte_at_Forall _ data k' H7 ltac:(lia)) as Hb;
          cbv beta in Hb; lia ]
    end.
Qed.

(** X6.  In a decoded patch every slot has an effect id in 0..127 (the
    byte is masked), four knob values of which only the second is ever
    filled in (the others stay 0), and a second knob value in 0..16383;
    on a seven-bit frame the single-byte knobs (all slots but 1 and 2) are
    at most 127. *)
Theorem slot_value_ranges (data : list Z) (w w' : World) (p : PatchData) :
  parse_patch_data data w = (Ok (Some p), w') ->
  Forall (fun s =>
            0 <= effect_id s <= 127
            /\ exists k2,
                 knob_values s = [0; k2; 0; 0]
                 /\ 0 <= k2 <= 16383
                 /\ (seven_bit data -> slot_num s <> 1 -> slot_num s <> 2 ->
                     k2 <= 127))
         (effect_slots p).
Proof.
  intros H. apply parse_success_inv in H.
  destruct H as (-> & _ & Hlen & _ & _ & Hbytes).
  unfold full_patch. cbn [effect_slots]. apply Forall_forall.
  intros s Hs. apply in_map_iff in Hs. destruct Hs as (i & <- & Hi).
  assert (Hi6 : 0 <= i < 6) by (simpl in Hi; lia).
  unfold full_slot. cbn [effect_id knob_values slot_num]. split.
  - rewrite land_7F. pose proof (Z.mod_pos_bound (byte_at data (5 + 14 * i)) 128).
    lia.
  - exists (knob2_of data i). split; [reflexivity|].
    apply knob2_of_bounds; assumption.
Qed.

Lemma slot_value_ranges_witness :
  Forall (fun s =>
            0 <= effect_id s <= 127
            /\ exists k2,
                 knob_values s = [0; k2; 0; 0]
                 /\ 0 <= k2 <= 16383
                 /\ (seven_bit sample_dump -> slot_num s <> 1 ->
                     slot_num s <> 2 -> k2 <= 127))
         (effect_slots (full_patch sample_dump)).
Proof.
  apply (slot_value_ranges sample_dump idle idle). reflexivity.
Defined.

End PatchFields.

(** ** Transport, continued *)

Section Replies.

Lemma last_cons_default (d x : list Z) (l : list (list Z)) :
  last (x :: l) d = last l x.
Proof.
  revert d x. induction l as [|y l IH]; intros d x; [reflexivity|].
  change (last (x :: y :: l) d) with (last (y :: l) d).
  rewrite IH. symmetry. apply IH.
Qed.

(** The reply loop of [_send_sysex] ends with the payload of the last SysEx
    message of the batch. *)
Lemma rx_loop_last (batch : list midi_msg) :
  forall (acc : list Z) (w : World),
  exists w',
    for_each batch
      (fun msg response =>
         match msg with
         | Sysex d => print ("RX: F0 " ^^ format_hex d ^^ " F7") ;; ret d
         | _ => ret response
         end) acc w = (Ok (last (sysex_payloads batch) acc), w')
    /\ inbox w' = inbox w /\ sent w' = sent w.
Proof.
  induction batch as [|msg rest IH]; intros acc w.
  - exists w. repeat split.
  - simpl for_each. destruct msg as [d| |].
    + unfold bind at 1. unfold bind at 1. rewrite print_run. unfold ret at 1.
      destruct (IH d (printed w ("RX: F0 " ^^ format_hex d ^^ " F7")))
        as (w' & E & Hi & Hs).
      exists w'. split.
      * replace (last (sysex_payloads (Sysex d :: rest)) acc)
          with (last (sysex_payloads rest) d)
          by (symmetry; apply (last_cons_default acc d)).
        exact E.
      * split; [exact Hi | now rewrite Hs, sent_printed].
    + unfold bind at 1, ret at 1. apply IH.
    + unfold bind at 1, ret at 1. apply IH.
Qed.

Lemma iter_pending_run (w : World) :
  exists w',
    iter_pending w = (Ok (hd [] (inbox w)), w')
    /\ inbox w' = tl (inbox w) /\ sent w' = sent w.
Proof.
  unfold iter_pending. destruct (inbox w) as [|batch rest].
  - eexists. split; [reflexivity|]. split; [reflexivity|].
    unfold sent. simpl. rewrite flat_map_app. simpl. now rewrite app_nil_r.
  - eexists. split; [reflexivity|]. split; [reflexivity|].
    unfold sent. simpl. rewrite flat_map_app. simpl. now rewrite app_nil_r.
Qed.

Lemma _send_sysex_reply (self : ZoomG3X) (data : list Z) (w : World) :
  connected self -> seven_bit data ->
  exists w',
    _send_sysex self data w
      = (Ok (match input_port self with
             | Some _ => last_reply (hd [] (inbox w))
             | None => None
             end), w')
    /\ inbox w' = match input_port self with
                  | Some _ => tl (inbox w)
                  | None => inbox w
                  end
    /\ sent w' = sent w ++ [Sysex (SYSEX_PREFIX ++ data)].
Proof.
  unfold connected, _send_sysex. intros Hc H7.
  destruct (port self) as [name|]; [|congruence].
  unfold bind at 1. rewrite (mido_sysex_ok _ _ H7).
  unfold bind at 1. rewrite print_run.
  unfold bind at 1. unfold port_send. rewrite emit_run.
  set (w1 := snd (emit _ _)).
  assert (Hw1 : sent w1 = sent w ++ [Sysex (SYSEX_PREFIX ++ data)]).
  { unfold w1. now rewrite sent_emit, sent_printed. }
  assert (Hi1 : inbox w1 = inbox w) by reflexivity.
  destruct (input_port self) as [iname|].
  - unfold bind at 1. rewrite time_sleep_ok by lia.
    unfold sleep_ms. rewrite emit_run.
    set (w2 := snd (emit _ _)).
    assert (Hw2 : sent w2 = sent w1).
    { unfold w2. rewrite sent_emit. apply app_nil_r. }
    assert (Hi2 : inbox w2 = inbox w) by reflexivity.
    unfold bind at 1.
    destruct (iter_pending_run w2) as (w3 & E3 & Hi3 & Hw3).
    rewrite E3. unfold bind at 1. rewrite Hi2.
    destruct (rx_loop_last (hd [] (inbox w)) [] w3) as (w' & E & Hi & Hs).
    rewrite E. exists w'. split.
    + unfold ret, last_reply.
      destruct (last (sysex_payloads (hd [] (inbox w))) []); reflexivity.
    + split; [now rewrite Hi, Hi3, Hi2 | now rewrite Hs, Hw3, Hw2, Hw1].
  - exists w1. split; [reflexivity|]. split; [exact Hi1 | exact Hw1].
Qed.

(** X7.  With an open output port and a payload of data bytes (0..127)
    [_send_sysex] sends the prefix followed by the payload once.  With an
    input port as well it then drains one batch of pending messages and
    returns the payload of the last SysEx message in it, whatever request
    that message belongs to, or [None] when there is none or the last one
    is empty; without an input port it returns [None] and drains nothing.
    A payload with a byte outside 0..127 is refused when the message is
    built: the call raises [ValueError] and the world is untouched. *)
Theorem _send_sysex_returns_last_sysex
    (self : ZoomG3X) (data : list Z) (w : World) :
  connected self ->
  (seven_bit data ->
   exists w',
     _send_sysex self data w
       = (Ok (match input_port self with
              | Some _ => last_reply (hd [] (inbox w))
              | None => None
              end), w')
     /\ inbox w' = match input_port self with
                   | Some _ => tl (inbox w)
                   | None => inbox w
                   end
     /\ sent w' = sent w ++ [Sysex (SYSEX_PREFIX ++ data)])
  /\ (~ seven_bit data ->
      _send_sysex self data w = (Raise ValueError, w)).
Proof.
  intros Hc. split.
  - intros H7. now apply _send_sysex_reply.
  - intros H7. unfold connected in Hc. unfold _send_sysex.
    destruct (port self) as [name|]; [|congruence].
    unfold bind at 1. now rewrite (mido_sysex_bad _ _ H7).
Qed.

Lemma _send_sysex_returns_last_sysex_witness :
  exists w',
    _send_sysex plugged [CMD_GET_PATCH_DATA] answering
      = (Ok (Some sample_dump), w')
    /\ inbox w' = [[]]
    /\ sent w' = sent answering
                 ++ [Sysex (SYSEX_PREFIX ++ [CMD_GET_PATCH_DATA])].
Proof.
  apply (_send_sysex_returns_last_sysex plugged [CMD_GET_PATCH_DATA] answering).
  - unfold connected. simpl. discriminate.
  - apply seven_bit_check. reflexivity.
Defined.

(** X8.  [get_patch_info] on a connected object sends the request 0x29
    and decodes the last SysEx frame of the drained batch: when that frame
    passes the checks of [parse_patch_data] the result is its snapshot, and
    nothing beyond the one request is sent. *)
Theorem get_patch_info_decodes_last_frame
    (self : ZoomG3X) (w : World) (frame : list Z) :
  connected self -> input_port self <> None ->
  last_reply (hd [] (inbox w)) = Some frame ->
  long_enough frame -> prefix_ok frame -> tag_ok frame -> all_bytes frame ->
  exists w',
    get_patch_info self w = (Ok (Some (full_patch frame)), w')
    /\ inbox w' = tl (inbox w)
    /\ sent w' = sent w ++ [Sysex (SYSEX_PREFIX ++ [0x29])].
Proof.
  intros Hc Hin Hreply H1 H2 H3 H4.
  unfold get_patch_info, get_current_patch_data.
  assert (H7 : seven_bit [CMD_GET_PATCH_DATA])
    by (apply seven_bit_check; reflexivity).
  destruct (_send_sysex_reply self [CMD_GET_PATCH_DATA] w Hc H7)
    as (w' & E & Hi & Hs).
  destruct (input_port self) as [iname|]; [|congruence].
  unfold bind at 1. rewrite E, Hreply.
  assert (Hne : exists b rest, frame = b :: rest).
  { destruct frame as [|b rest]; [|now exists b, rest].
    unfold long_enough, Py.len in H1. simpl in H1. lia. }
  destruct Hne as (b & rest & Hf). subst frame. cbv beta iota.
  exists w'. split; [now apply parse_patch_data_full|].
  split; [exact Hi | exact Hs].
Qed.

Lemma get_patch_info_decodes_last_frame_witness :
  exists w',
    get_patch_info plugged answering = (Ok (Some (full_patch sample_dump)), w')
    /\ inbox w' = tl (inbox answering)
    /\ sent w' = sent answering ++ [Sysex (SYSEX_PREFIX ++ [0x29])].
Proof.
  apply (get_patch_info_decodes_last_frame plugged answering sample_dump).
  - unfold connected. simpl. discriminate.
  - simpl. discriminate.
  - reflexivity.
  - unfold long_enough, Py.len. simpl. lia.
  - reflexivity.
  - reflexivity.
  - apply all_bytes_check. reflexivity.
Defined.

End Replies.

(** ** Object state and mode *)

Section ObjectState.

Lemma _send_sysex_unconnected (self : ZoomG3X) (data : list Z) (w : World) :
  port self = None ->
  _send_sysex self data w = (Ok None, printed w "Not connected!").
Proof. intros H. unfold _send_sysex. rewrite H. reflexivity. Qed.

(** X9.  On an object without an open output port nothing is ever sent,
    slept on or drained, yet only the line [Not connected!] tells: the
    slot, type, knob and patch commands still print their usual success
    line after it, [enter_edit_mode] still returns [True] and marks the
    object as being in edit mode, and [get_patch_info] returns [None]. *)
Theorem unconnected_commands_only_print
    (self : ZoomG3X) (slot effect knob value n : Z) (on : bool) (w : World) :
  port self = None -> 0 <= slot <= 5 -> 0 <= n <= 99 ->
  let w1 := printed w "Not connected!" in
  set_effect_enabled self slot on w
    = (Ok tt, printed w1 ("Slot " ^^ Py.str slot ^^ ": "
                          ^^ (if on then "ON" else "OFF")))
  /\ set_effect_type self slot effect w
    = (Ok tt, printed w1 ("Slot " ^^ Py.str slot ^^ ": Changed to "
                          ^^ EFFECTS_get effect
                               ("Unknown (" ^^ Py.str effect ^^ ")")))
  /\ set_knob_value self slot knob value w
    = (Ok tt, printed w1 ("Slot " ^^ Py.str slot ^^ ", Knob " ^^ Py.str knob
                          ^^ ": Set to " ^^ Py.str value))
  /\ change_patch self n w
    = (Ok tt, printed w1 ("Changed to patch " ^^ Py.str n))
  /\ enter_edit_mode self w
    = (Ok (true, set_in_edit_mode self true), printed w1 "Entered edit mode")
  /\ get_patch_info self w = (Ok None, w1)
  /\ sent w1 = sent w /\ transport_io w1 = transport_io w.
Proof.
  intros Hport Hslot Hn w1.
  unfold set_effect_enabled, set_effect_type, set_knob_value, change_patch,
    enter_edit_mode, get_patch_info, get_current_patch_data,
    _send_program_change.
  rewrite (slot_guard_in _ Hslot).
  replace ((n <? 0) || (99 <? n)) with false
    by (symmetry; now rewrite !ltb_false by lia).
  unfold bind. rewrite !_send_sysex_unconnected by exact Hport.
  rewrite Hport. rewrite !print_run.
  repeat split.
  - apply sent_printed.
  - apply transport_io_printed.
Qed.

Lemma unconnected_commands_only_print_witness :
  let w1 := printed idle "Not connected!" in
  set_effect_enabled unplugged 3 true idle
    = (Ok tt, printed w1 ("Slot " ^^ Py.str 3 ^^ ": " ^^ "ON"))
  /\ set_effect_type unplugged 3 2 idle
    = (Ok tt, printed w1 ("Slot " ^^ Py.str 3 ^^ ": Changed to "
                          ^^ EFFECTS_get 2 ("Unknown (" ^^ Py.str 2 ^^ ")")))
  /\ set_knob_value unplugged 3 1 40 idle
    = (Ok tt, printed w1 ("Slot " ^^ Py.str 3 ^^ ", Knob " ^^ Py.str 1
                          ^^ ": Set to " ^^ Py.str 40))
  /\ change_patch unplugged 7 idle
    = (Ok tt, printed w1 ("Changed to patch " ^^ Py.str 7))
  /\ enter_edit_mode unplugged idle
    = (Ok (true, set_in_edit_mode unplugged true),
       printed w1 "Entered edit mode")
  /\ get_patch_info unplugged idle = (Ok None, w1)
  /\ sent w1 = sent idle /\ transport_io w1 = transport_io idle.
Proof.
  apply (unconnected_commands_only_print unplugged 3 2 1 40 7 true idle).
  - reflexivity.
  - lia.
  - lia.
Defined.

Lemma edit_command_run (self : ZoomG3X) (c : Z) (w : World) :
  0 <= c <= 127 ->
  exists r w',
    _send_sysex self [c] w = (Ok r, w')
    /\ sent w' = sent w ++ match port self with
                           | Some _ => [Sysex (SYSEX_PREFIX ++ [c])]
                           | None => []
                           end.
Proof.
  intros H7. destruct (port self) as [name|] eqn:Hp.
  - apply _send_sysex_sent; [unfold connected; congruence|].
    repeat constructor; lia.
  - rewrite (_send_sysex_unconnected _ _ _ Hp). eexists _, _.
    split; [reflexivity|]. now rewrite sent_printed, app_nil_r.
Qed.

(** X10.  Entering and then leaving edit mode on a connected object sends
    [0x50] and then [0x51], each behind the prefix and nothing else, both
    calls return [True], the flag [in_edit_mode] is set in between and
    clear afterwards, and the ports of the object are left as they were. *)
Theorem edit_mode_enter_exit (self : ZoomG3X) (w : World) :
  connected self ->
  exists self1 w1 self2 w2,
    enter_edit_mode self w = (Ok (true, self1), w1)
    /\ in_edit_mode self1 = true
    /\ exit_edit_mode self1 w1 = (Ok (true, self2), w2)
    /\ in_edit_mode self2 = false
    /\ port self2 = port self /\ input_port self2 = input_port self
    /\ sent w1 = sent w ++ [Sysex (SYSEX_PREFIX ++ [0x50])]
    /\ sent w2 = sent w ++ [Sysex (SYSEX_PREFIX ++ [0x50]);
                            Sysex (SYSEX_PREFIX ++ [0x51])].
Proof.
  intros Hc. unfold connected in Hc.
  destruct (port self) as [name|] eqn:Hp; [|congruence].
  destruct (edit_command_run self CMD_ENTER_EDIT w ltac:(unfold CMD_ENTER_EDIT; lia))
    as (r1 & wa & E1 & S1).
  rewrite Hp in S1.
  set (self1 := set_in_edit_mode self true).
  destruct (edit_command_run self1 CMD_EXIT_EDIT
              (printed wa "Entered edit mode")
              ltac:(unfold CMD_EXIT_EDIT; lia)) as (r2 & wb & E2 & S2).
  replace (port self1) with (Some name) in S2 by (symmetry; exact Hp).
  exists self1, (printed wa "Entered edit mode"),
    (set_in_edit_mode self1 false), (printed wb "Exited edit mode").
  split.
  { unfold enter_edit_mode, bind. rewrite E1, print_run. reflexivity. }
  split; [reflexivity|]. split.
  { unfold exit_edit_mode, bind. rewrite E2, print_run. reflexivity. }
  split; [reflexivity|]. split; [exact Hp|]. split; [reflexivity|].
  split.
  - now rewrite sent_printed, S1.
  - rewrite sent_printed, S2, sent_printed, S1, <- app_assoc. reflexivity.
Qed.

Lemma edit_mode_enter_exit_witness :
  exists self1 w1 self2 w2,
    enter_edit_mode plugged idle = (Ok (true, self1), w1)
    /\ in_edit_mode self1 = true
    /\ exit_edit_mode self1 w1 = (Ok (true, self2), w2)
    /\ in_edit_mode self2 = false
    /\ port self2 = port plugged /\ input_port self2 = input_port plugged
    /\ sent w1 = sent idle ++ [Sysex (SYSEX_PREFIX ++ [0x50])]
    /\ sent w2 = sent idle ++ [Sysex (SYSEX_PREFIX ++ [0x50]);
                               Sysex (SYSEX_PREFIX ++ [0x51])].
Proof.
  apply (edit_mode_enter_exit plugged idle).
  unfold connected. simpl. discriminate.
Defined.

(** X11.  [disconnect] always ends with an object that has no output
    port, no input port and is not in edit mode, keeping its port name.
    If the object was in edit mode and connected, the exit command [0x51]
    is the one message sent on the way; otherwise nothing is sent.
    Disconnecting again changes nothing and sends nothing. *)
Theorem disconnect_releases (self : ZoomG3X) (w : World) :
  exists self' w',
    disconnect self w = (Ok self', w')
    /\ port self' = None /\ input_port self' = None
    /\ in_edit_mode self' = false /\ port_name self' = port_name self
    /\ sent w' = sent w ++ (if in_edit_mode self
                            then match port self with
                                 | Some _ => [Sysex (SYSEX_PREFIX ++ [0x51])]
                                 | None => []
                                 end
                            else [])
    /\ disconnect self' w' = (Ok self', w').
Proof.
  unfold disconnect at 1.
  destruct (in_edit_mode self) eqn:He.
  - destruct (edit_command_run self CMD_EXIT_EDIT w
                ltac:(unfold CMD_EXIT_EDIT; lia)) as (r & wa & E & S).
    unfold bind at 1. unfold bind at 1. unfold exit_edit_mode, bind at 1.
    rewrite E. unfold bind at 1. rewrite print_run. unfold ret at 1 2.
    cbn [snd].
    set (s1 := set_in_edit_mode self false).
    set (s2 := match port s1 with Some _ => set_port s1 None | None => s1 end).
    set (s3 := match input_port s2 with
               | Some _ => set_input_port s2 None
               | None => s2
               end).
    assert (H3 : port s3 = None /\ input_port s3 = None
                 /\ in_edit_mode s3 = false /\ port_name s3 = port_name self).
    { unfold s3, s2, s1.
      destruct self as [pn [p|] [ip|] em]; simpl; repeat split. }
    destruct H3 as (Hp3 & Hi3 & He3 & Hn3).
    eexists s3, _. split; [reflexivity|].
    split; [exact Hp3|]. split; [exact Hi3|]. split; [exact He3|].
    split; [exact Hn3|]. split.
    + now rewrite sent_printed, S.
    + unfold disconnect. rewrite He3. unfold bind, ret.
      rewrite Hp3, Hi3. reflexivity.
  - unfold bind, ret.
    set (s2 := match port self with
               | Some _ => set_port self None
               | None => self
               end).
    set (s3 := match input_port s2 with
               | Some _ => set_input_port s2 None
               | None => s2
               end).
    assert (H3 : port s3 = None /\ input_port s3 = None
                 /\ in_edit_mode s3 = false /\ port_name s3 = port_name self).
    { unfold s3, s2.
      destruct self as [pn [p|] [ip|] em]; simpl in *; repeat split;
        exact He. }
    destruct H3 as (Hp3 & Hi3 & He3 & Hn3).
    exists s3, w. split; [reflexivity|].
    split; [exact Hp3|]. split; [exact Hi3|]. split; [exact He3|].
    split; [exact Hn3|]. split.
    + now rewrite app_nil_r.
    + unfold disconnect. rewrite He3. unfold bind, ret.
      rewrite Hp3, Hi3. reflexivity.
Qed.

(** X12.  [change_patch] accepts 0..99 only.  Outside that range it prints
    one line and does nothing else; inside, on a connected object, it
    sends exactly one program-change message carrying the number, without
    sleeping or draining replies. *)
Theorem change_patch_range (self : ZoomG3X) (n : Z) (w : World) :
  (n < 0 \/ 99 < n ->
     change_patch self n w
       = (Ok tt, printed w ("Invalid patch number: " ^^ Py.str n
                            ^^ " (must be 0-99)")))
  /\ (0 <= n <= 99 -> connected self ->
      change_patch self n w
        = (Ok tt,
           mkWorld (trace w ++ [EPrint ("TX: Program Change " ^^ Py.str n);
                                ESend (ProgramChange n);
                                EPrint ("Changed to patch " ^^ Py.str n)])
                   (inbox w))).
Proof.
  unfold change_patch. split.
  - intros Hn.
    replace ((n <? 0) || (99 <? n)) with true; [reflexivity|].
    symmetry. destruct Hn as [Hn|Hn].
    + now rewrite ltb_true.
    + rewrite (ltb_true 99 n) by exact Hn. apply orb_true_r.
  - intros Hn Hc.
    replace ((n <? 0) || (99 <? n)) with false
      by (symmetry; now rewrite !ltb_false by lia).
    unfold connected in Hc. unfold _send_program_change.
    destruct (port self) as [name|]; [|congruence].
    unfold bind at 1. unfold bind at 1. unfold mido_program_change.
    replace (data_byte n) with true
      by (symmetry; apply data_byte_spec; lia).
    unfold bind, ret, print, port_send, emit. simpl.
    now rewrite <- !app_assoc.
Qed.

Lemma change_patch_range_witness :
  change_patch plugged 100 idle
    = (Ok tt, printed idle ("Invalid patch number: " ^^ Py.str 100
                            ^^ " (must be 0-99)"))
  /\ change_patch plugged 99 idle
    = (Ok tt,
       mkWorld (trace idle ++ [EPrint ("TX: Program Change " ^^ Py.str 99);
                               ESend (ProgramChange 99);
                               EPrint ("Changed to patch " ^^ Py.str 99)])
               (inbox idle)).
Proof.
  split.
  - apply (change_patch_range plugged 100 idle). lia.
  - apply (change_patch_range plugged 99 idle); [lia|].
    unfold connected. simpl. discriminate.
Defined.

End ObjectState.

(** ** Discovery scanner, continued *)

Section ScannerRuns.

Import Scan.

Lemma io_free_emit_quiet (e : event) :
  match e with ESend _ | ESleep _ | EPending _ => False | _ => True end ->
  io_free (emit e).
Proof.
  intros He w. exists tt, (snd (emit e w)). split; [reflexivity|].
  split; [reflexivity|]. split.
  - rewrite sent_emit. destruct e; try (now rewrite app_nil_r); elim He.
  - unfold transport_io, emit. simpl. rewrite filter_app.
    destruct e; simpl; try (now rewrite app_nil_r); elim He.
Qed.

Lemma io_free_print (line : string) : io_free (print line).
Proof. now apply io_free_emit_quiet. Qed.

Lemma io_free_log_write (text : string) : io_free (log_write text).
Proof. now apply io_free_emit_quiet. Qed.

Lemma io_free_log_flush : io_free log_flush.
Proof. now apply io_free_emit_quiet. Qed.

Lemma io_free_ret {A} (a : A) : io_free (ret a).
Proof. intros w. exists a, w. repeat split. Qed.

Lemma io_free_bind {A B} (m : M A) (k : A -> M B) :
  io_free m -> (forall a, io_free (k a)) -> io_free (bind m k).
Proof.
  intros Hm Hk w. destruct (Hm w) as (a & w1 & E & Hi & Hs & Ht).
  destruct (Hk a w1) as (b & w2 & E2 & Hi2 & Hs2 & Ht2).
  exists b, w2. unfold bind. rewrite E. split; [exact E2|].
  split; [congruence|]. split; congruence.
Qed.

Lemma io_free_for_each {A S} (body : A -> S -> M S) (l : list A) :
  (forall x s, io_free (body x s)) -> forall acc, io_free (for_each l body acc).
Proof.
  intros Hb. induction l as [|x l IH]; intros acc; simpl.
  - apply io_free_ret.
  - apply io_free_bind; [apply Hb | exact IH].
Qed.

Lemma quiet_to_ret {A} (r : A) : quiet_to r (ret r).
Proof. intros w. exists w. repeat split. Qed.

Lemma quiet_to_then {A B} (m : M A) (rest : M B) (r : B) :
  io_free m -> quiet_to r rest -> quiet_to r (bind m (fun _ => rest)).
Proof.
  intros Hm Hr w. destruct (Hm w) as (a & w1 & E & Hi & Hs & Ht).
  destruct (Hr w1) as (w2 & E2 & Hi2 & Hs2 & Ht2).
  exists w2. unfold bind. rewrite E. split; [exact E2|].
  split; [congruence|]. split; congruence.
Qed.

(** The collecting loop of [send_sysex] keeps every SysEx payload. *)
Lemma collect_all (batch : list midi_msg) :
  forall (acc : list (list Z)) (w : World),
  for_each batch
    (fun msg responses =>
       match msg with
       | Sysex d => ret (responses ++ [d])
       | _ => ret responses
       end) acc w = (Ok (acc ++ sysex_payloads batch), w).
Proof.
  induction batch as [|msg rest IH]; intros acc w.
  - simpl. now rewrite app_nil_r.
  - simpl for_each. destruct msg as [d| |]; unfold bind at 1, ret at 1;
      rewrite IH; simpl sysex_payloads; now rewrite <- ?app_assoc.
Qed.

Lemma send_sysex_run (data : list Z) (timeout : Z) (w : World) :
  seven_bit data -> 0 <= timeout ->
  send_sysex data timeout w
    = (Ok (sysex_payloads (hd [] (inbox w))),
       mkWorld (trace w ++ [ESend (Sysex (SYSEX_PREFIX ++ data));
                            ESleep timeout;
                            EPending (hd [] (inbox w))])
               (tl (inbox w))).
Proof.
  intros H7 Ht. unfold send_sysex.
  unfold bind at 1. rewrite (mido_sysex_ok _ _ H7).
  unfold bind at 1. unfold port_send. rewrite emit_run.
  unfold bind at 1. rewrite time_sleep_ok by exact Ht.
  unfold sleep_ms. rewrite emit_run.
  unfold bind at 1. unfold iter_pending, emit. simpl.
  destruct (inbox w) as [|batch rest]; rewrite collect_all; simpl;
    now rewrite <- !app_assoc.
Qed.

Lemma send_sysex_refused (data : list Z) (timeout : Z) (w : World) :
  ~ seven_bit data -> send_sysex data timeout w = (Raise ValueError, w).
Proof.
  intros H7. unfold send_sysex. unfold bind at 1.
  now rewrite (mido_sysex_bad _ _ H7).
Qed.

(** X13.  For a payload of data bytes (0..127) and a timeout that is not
    negative, the scanner's [send_sysex] sends the prefix followed by the
    payload, sleeps for the timeout, drains exactly one batch, and returns
    the payloads of all SysEx messages of that batch in arrival order,
    dropping messages of any other type.  A payload with a byte outside
    0..127 raises [ValueError] before anything is sent; a negative timeout
    raises [ValueError] after the message is sent and before anything is
    drained. *)
Theorem send_sysex_collects_all (data : list Z) (timeout : Z) (w : World) :
  (seven_bit data -> 0 <= timeout ->
   send_sysex data timeout w
     = (Ok (sysex_payloads (hd [] (inbox w))),
        mkWorld (trace w ++ [ESend (Sysex (SYSEX_PREFIX ++ data));
                             ESleep timeout;
                             EPending (hd [] (inbox w))])
                (tl (inbox w))))
  /\ (~ seven_bit data ->
      send_sysex data timeout w = (Raise ValueError, w))
  /\ (seven_bit data -> timeout < 0 ->
      send_sysex data timeout w
        = (Raise ValueError,
           mkWorld (trace w ++ [ESend (Sysex (SYSEX_PREFIX ++ data))])
                   (inbox w)))
  /\ (forall d, In d (sysex_payloads (hd [] (inbox w)))
                <-> In (Sysex d) (hd [] (inbox w)))
  /\ (List.length (sysex_payloads (hd [] (inbox w)))
      <= List.length (hd [] (inbox w)))%nat.
Proof.
  split; [apply send_sysex_run|]. split; [apply send_sysex_refused|].
  split.
  { intros H7 Ht. unfold send_sysex.
    unfold bind at 1. rewrite (mido_sysex_ok _ _ H7).
    unfold bind at 1. unfold port_send. rewrite emit_run.
    unfold bind at 1. unfold time_sleep. rewrite ltb_true by exact Ht.
    reflexivity. }
  generalize (hd [] (inbox w)). intros batch. split.
  - intros d. unfold sysex_payloads. rewrite in_flat_map. split.
    + intros (m & Hm & Hd). destruct m as [d'| |]; simpl in Hd; try tauto.
      destruct Hd as [<-|[]]. exact Hm.
    + intros H. exists (Sysex d). split; [exact H | now left].
  - induction batch as [|m rest IH]; simpl; [lia|].
    destruct m; simpl; lia.
Qed.

Lemma send_sysex_collects_all_witness :
  send_sysex [0x29] 150 answering
    = (Ok (sysex_payloads (hd [] (inbox answering))),
       mkWorld (trace answering ++ [ESend (Sysex (SYSEX_PREFIX ++ [0x29]));
                                    ESleep 150;
                                    EPending (hd [] (inbox answering))])
               (tl (inbox answering)))
  /\ send_sysex [255] 150 answering = (Raise ValueError, answering)
  /\ send_sysex [0x29] (-5) answering
     = (Raise ValueError,
        mkWorld (trace answering ++ [ESend (Sysex (SYSEX_PREFIX ++ [0x29]))])
                (inbox answering)).
Proof.
  assert (Hgood : seven_bit [0x29]) by (apply seven_bit_check; reflexivity).
  assert (Hbad : ~ seven_bit [255]).
  { intros H. apply seven_bit_check in H. discriminate. }
  split; [|split].
  - apply (send_sysex_collects_all [0x29] 150 answering); [exact Hgood | lia].
  - apply (send_sysex_collects_all [255] 150 answering). exact Hbad.
  - apply (send_sysex_collects_all [0x29] (-5) answering);
      [exact Hgood | lia].
Defined.

End ScannerRuns.

Section ScannerAttribution.

Import Scan.

Lemma sent_probe_run (t : list event) (i rest : list (list midi_msg))
    (m : midi_msg) (timeout : Z) (batch : list midi_msg) :
  sent (mkWorld (t ++ [ESend m; ESleep timeout; EPending batch]) rest)
    = sent (mkWorld t i) ++ [m].
Proof. unfold sent. simpl. rewrite flat_map_app. reflexivity. Qed.

(** One round of [scan_commands], whatever arrives. *)
Lemma scan_one_run (c : Z) (results : list result) (w : World) :
  0 <= c <= 127 ->
  exists w',
    scan_one c results w
      = (Ok (results
             ++ [mkResult c (SYSEX_PREFIX ++ [c])
                          (sysex_payloads (hd [] (inbox w)))]), w')
    /\ inbox w' = tl (inbox w)
    /\ sent w' = sent w ++ [probe c].
Proof.
  intros Hc. unfold scan_one. unfold bind at 1.
  rewrite send_sysex_run by (try lia; repeat constructor; lia).
  set (responses := sysex_payloads (hd [] (inbox w))).
  set (w1 := mkWorld _ _).
  set (r := results ++ [mkResult c (SYSEX_PREFIX ++ [c]) responses]).
  match goal with
  | |- exists w', ?rest w1 = _ /\ _ =>
      assert (Hq : quiet_to r rest)
  end.
  { apply quiet_to_then; [apply io_free_log_write|].
    apply quiet_to_then; [apply io_free_log_write|].
    apply quiet_to_then; [apply io_free_log_write|].
    apply quiet_to_then.
    - destruct responses as [|first others].
      + apply io_free_bind; [apply io_free_log_write|].
        intros _. apply io_free_print.
      + apply io_free_bind; [|intros _; apply io_free_print].
        apply io_free_for_each. intros [i resp] [].
        apply io_free_bind; [apply io_free_log_write|]. intros _.
        apply io_free_bind; [apply io_free_log_write|]. intros _.
        destruct (analyze_response c resp);
          [apply io_free_ret | apply io_free_log_write].
    - apply quiet_to_then; [apply io_free_log_flush | apply quiet_to_ret]. }
  destruct (Hq w1) as (w' & E & Hi & Hs & _).
  exists w'. split; [exact E|]. split; [exact Hi|].
  rewrite Hs. unfold w1. apply (sent_probe_run _ (inbox w)).
Qed.

Lemma skipn_tl {A} (n : nat) (l : list A) : skipn n (tl l) = skipn (S n) l.
Proof. destruct l; [now rewrite skipn_nil | reflexivity]. Qed.

Lemma scan_loop_run (cmds : list Z) :
  seven_bit cmds ->
  forall (results : list result) (w : World),
  exists w',
    for_each cmds scan_one results w
      = (Ok (results ++ attribute cmds (inbox w)), w')
    /\ inbox w' = skipn (List.length cmds) (inbox w)
    /\ sent w' = sent w ++ map probe cmds.
Proof.
  induction 1 as [|c rest Hc Hrest IH]; intros results w.
  - exists w. simpl. now rewrite !app_nil_r.
  - simpl for_each. unfold bind at 1.
    destruct (scan_one_run c results w ltac:(lia)) as (w1 & E1 & Hi1 & Hs1).
    rewrite E1.
    destruct (IH (results
                  ++ [mkResult c (SYSEX_PREFIX ++ [c])
                               (sysex_payloads (hd [] (inbox w)))]) w1)
      as (w' & E & Hi & Hs).
    exists w'. split.
    + rewrite E, Hi1, <- app_assoc. reflexivity.
    + split.
      * rewrite Hi, Hi1. apply skipn_tl.
      * rewrite Hs, Hs1, <- app_assoc. reflexivity.
Qed.

Lemma attribute_nth (cmds : list Z) :
  forall (pending : list (list midi_msg)) (k : nat) (r : result),
  nth_error (attribute cmds pending) k = Some r ->
  nth_error cmds k = Some (cmd r)
  /\ tx r = SYSEX_PREFIX ++ [cmd r]
  /\ responses r = sysex_payloads (nth k pending []).
Proof.
  induction cmds as [|c rest IH]; intros pending k r H.
  - destruct k; discriminate.
  - destruct k as [|k]; simpl in H.
    + injection H as <-. destruct pending; repeat split.
    + apply IH in H. destruct H as (H1 & H2 & H3).
      split; [exact H1|]. split; [exact H2|].
      rewrite H3. destruct pending as [|b p]; [now destruct k | reflexivity].
Qed.

Lemma attribute_length (cmds : list Z) :
  forall pending, List.length (attribute cmds pending) = List.length cmds.
Proof.
  induction cmds as [|c rest IH]; intros pending; simpl;
    [reflexivity | now rewrite IH].
Qed.

Lemma scan_one_refused (c : Z) (results : list result) (w : World) :
  ~ 0 <= c <= 127 -> scan_one c results w = (Raise ValueError, w).
Proof.
  intros Hc. unfold scan_one. unfold bind at 1.
  rewrite send_sysex_refused; [reflexivity|].
  apply (seven_bit_has _ c); [now left | exact Hc].
Qed.

Lemma scan_loop_abort (good rest : list Z) (bad : Z) :
  seven_bit good -> ~ 0 <= bad <= 127 ->
  forall (results : list result) (w : World),
  exists w',
    for_each (good ++ bad :: rest) scan_one results w
      = (Raise ValueError, w')
    /\ inbox w' = skipn (List.length good) (inbox w)
    /\ sent w' = sent w ++ map probe good.
Proof.
  intros Hgood Hbad. induction Hgood as [|c good Hc Hgood IH];
    intros results w.
  - exists w. simpl app. simpl for_each. unfold bind at 1.
    rewrite (scan_one_refused _ _ _ Hbad). simpl. now rewrite app_nil_r.
  - simpl app. simpl for_each. unfold bind at 1.
    destruct (scan_one_run c results w ltac:(lia)) as (w1 & E1 & Hi1 & Hs1).
    rewrite E1.
    destruct (IH (results
                  ++ [mkResult c (SYSEX_PREFIX ++ [c])
                               (sysex_payloads (hd [] (inbox w)))]) w1)
      as (w' & E & Hi & Hs).
    exists w'. split; [exact E|]. split.
    + rewrite Hi, Hi1. apply skipn_tl.
    + rewrite Hs, Hs1, <- app_assoc. reflexivity.
Qed.

(** X14.  Over a range of data bytes (0..127) [scan_commands] runs to the
    end of its range, whatever arrives.  It sends one probe per command,
    in range order, and pairs replies with commands by position only: the
    k-th entry carries the k-th command, the frame sent for it, and
    exactly the SysEx payloads of the k-th batch drained, including any
    frame that arrived late for an earlier command.  A range that reaches
    a command outside 0..127 ends there with [ValueError]: the probes of
    the commands in front of it have been sent and no entry is returned. *)
Theorem scan_commands_positional (start stop : Z) (w : World) :
  (seven_bit (Py.range start (stop + 1)) ->
   exists results w',
     scan_commands start stop w = (Ok results, w')
     /\ List.length results = List.length (Py.range start (stop + 1))
     /\ (forall k r,
           nth_error results k = Some r ->
           nth_error (Py.range start (stop + 1)) k = Some (cmd r)
           /\ tx r = SYSEX_PREFIX ++ [cmd r]
           /\ responses r = sysex_payloads (nth k (inbox w) []))
     /\ inbox w' = skipn (List.length results) (inbox w)
     /\ sent w' = sent w ++ map probe (Py.range start (stop + 1)))
  /\ (forall good bad rest,
        Py.range start (stop + 1) = good ++ bad :: rest ->
        seven_bit good -> ~ 0 <= bad <= 127 ->
        exists w',
          scan_commands start stop w = (Raise ValueError, w')
          /\ inbox w' = skipn (List.length good) (inbox w)
          /\ sent w' = sent w ++ map probe good).
Proof.
  unfold scan_commands.
  unfold bind at 1 3. rewrite !print_run.
  unfold bind at 1 2. rewrite !print_run.
  set (w2 := printed (printed w _) _).
  split.
  - intros H7.
    destruct (scan_loop_run (Py.range start (stop + 1)) H7 [] w2)
      as (w' & E & Hi & Hs).
    exists (attribute (Py.range start (stop + 1)) (inbox w)), w'.
    split; [exact E|]. split; [apply attribute_length|]. split.
    + intros k r H. now apply attribute_nth.
    + split.
      * now rewrite attribute_length, Hi.
      * rewrite Hs. unfold w2. now rewrite !sent_printed.
  - intros good bad rest Hr Hgood Hbad. rewrite Hr.
    destruct (scan_loop_abort good rest bad Hgood Hbad [] w2)
      as (w' & E & Hi & Hs).
    exists w'. split; [exact E|]. split; [exact Hi|].
    rewrite Hs. unfold w2. now rewrite !sent_printed.
Qed.

Lemma scan_commands_positional_witness :
  (exists results w',
     scan_commands 0x28 0x29 answering = (Ok results, w')
     /\ List.length results = List.length (Py.range 0x28 (0x29 + 1))
     /\ (forall k r,
           nth_error results k = Some r ->
           nth_error (Py.range 0x28 (0x29 + 1)) k = Some (cmd r)
           /\ tx r = SYSEX_PREFIX ++ [cmd r]
           /\ responses r = sysex_payloads (nth k (inbox answering) []))
     /\ inbox w' = skipn (List.length results) (inbox answering)
     /\ sent w' = sent answering ++ map probe (Py.range 0x28 (0x29 + 1)))
  /\ (exists w',
        scan_commands 0x7F 0x80 quiet = (Raise ValueError, w')
        /\ inbox w' = skipn (List.length [0x7F]) (inbox quiet)
        /\ sent w' = sent quiet ++ map probe [0x7F]).
Proof.
  split.
  - apply (scan_commands_positional 0x28 0x29 answering).
    apply seven_bit_check. reflexivity.
  - apply (proj2 (scan_commands_positional 0x7F 0x80 quiet) [0x7F] 0x80 []).
    + reflexivity.
    + apply seven_bit_check. reflexivity.
    + lia.
Defined.

(** One round of [scan_with_params]. *)
Lemma scan_param_run (c param : Z) (w : World) :
  0 <= c <= 127 -> 0 <= param <= 127 ->
  exists w',
    scan_param c param tt w = (Ok tt, w')
    /\ inbox w' = tl (inbox w)
    /\ sent w' = sent w ++ [param_probe c param].
Proof.
  intros Hc Hp. unfold scan_param. unfold bind at 1.
  rewrite send_sysex_run by (try lia; repeat constructor; lia).
  set (responses := sysex_payloads (hd [] (inbox w))).
  set (w1 := mkWorld _ _).
  match goal with
  | |- exists w', ?rest w1 = _ /\ _ =>
      assert (Hq : io_free rest)
  end.
  { apply io_free_bind; [apply io_free_log_write|]. intros _.
    apply io_free_bind; [apply io_free_log_write|]. intros _.
    destruct responses as [|first others]; [apply io_free_log_write|].
    apply io_free_bind; [|intros _; apply io_free_print].
    apply io_free_for_each. intros resp []. apply io_free_log_write. }
  destruct (Hq w1) as ([] & w' & E & Hi & Hs & _).
  exists w'. split; [exact E|]. split; [exact Hi|].
  rewrite Hs. unfold w1. apply (sent_probe_run _ (inbox w)).
Qed.

Lemma range_bounds (a b x : Z) : In x (Py.range a b) -> a <= x < b.
Proof.
  unfold Py.range. intros H. apply in_map_iff in H.
  destruct H as (k & <- & Hk). apply in_seq in Hk. lia.
Qed.

(** X15.  For a command byte in 0..127 and [param_range] at most 127,
    [scan_with_params] sends the probes [[cmd, 0]], [[cmd, 1]], ...,
    [[cmd, param_range]] in that order (none when [param_range] is
    negative), drains one batch after each, and returns normally whatever
    arrives.  For a command outside 0..127 and a [param_range] that is
    not negative it raises [ValueError] at the first probe, with nothing
    sent or drained. *)
Theorem scan_with_params_probes (c param_range : Z) (w : World) :
  (0 <= c <= 127 -> param_range <= 127 ->
   exists w',
     scan_with_params c param_range w = (Ok tt, w')
     /\ sent w' = sent w
                  ++ map (param_probe c) (Py.range 0 (param_range + 1))
     /\ inbox w' = skipn (Z.to_nat (param_range + 1)) (inbox w))
  /\ (~ 0 <= c <= 127 -> 0 <= param_range ->
      exists w',
        scan_with_params c param_range w = (Raise ValueError, w')
        /\ sent w' = sent w /\ inbox w' = inbox w).
Proof.
  unfold scan_with_params.
  unfold bind at 1 3. rewrite !print_run.
  unfold bind at 1 2. rewrite !print_run.
  set (w2 := printed (printed w _) _).
  split.
  - intros Hc Hpr.
    assert (Hloop : forall params w0,
               Forall (fun p => 0 <= p <= 127) params ->
               exists w',
                 for_each params (scan_param c) tt w0 = (Ok tt, w')
                 /\ sent w' = sent w0 ++ map (param_probe c) params
                 /\ inbox w' = skipn (List.length params) (inbox w0)).
    { intros params w0 Hps. revert w0.
      induction Hps as [|p rest Hp Hrest IH]; intros w0.
      - exists w0. simpl. now rewrite app_nil_r.
      - simpl for_each. unfold bind at 1.
        destruct (scan_param_run c p w0 Hc Hp) as (w1 & E1 & Hi1 & Hs1).
        rewrite E1. destruct (IH w1) as (w' & E & Hs & Hi).
        exists w'. split; [exact E|]. split.
        + rewrite Hs, Hs1, <- app_assoc. reflexivity.
        + rewrite Hi, Hi1. apply skipn_tl. }
    assert (Hps : Forall (fun p => 0 <= p <= 127)
                         (Py.range 0 (param_range + 1))).
    { apply Forall_forall. intros p Hin. apply range_bounds in Hin. lia. }
    destruct (Hloop (Py.range 0 (param_range + 1)) w2 Hps)
      as (w' & E & Hs & Hi).
    assert (Hlen : List.length (Py.range 0 (param_range + 1))
                   = Z.to_nat (param_range + 1)).
    { unfold Py.range. rewrite length_map, length_seq. f_equal. lia. }
    exists w'. split; [exact E|]. split.
    + rewrite Hs. unfold w2. now rewrite !sent_printed.
    + now rewrite Hi, Hlen.
  - intros Hc Hpr. rewrite (range_cons 0 (param_range + 1)) by lia.
    simpl for_each. unfold bind at 1. unfold scan_param at 1.
    unfold bind at 1. rewrite send_sysex_refused
      by (apply (seven_bit_has _ c); [now left | exact Hc]).
    exists w2. split; [reflexivity|]. split; [|reflexivity].
    unfold w2. now rewrite !sent_printed.
Qed.

Lemma scan_with_params_probes_witness :
  (exists w',
     scan_with_params 0x31 5 answering = (Ok tt, w')
     /\ sent w' = sent answering
                  ++ map (param_probe 0x31) (Py.range 0 (5 + 1))
     /\ inbox w' = skipn (Z.to_nat (5 + 1)) (inbox answering))
  /\ (exists w',
        scan_with_params 200 0 answering = (Raise ValueError, w')
        /\ sent w' = sent answering /\ inbox w' = inbox answering).
Proof.
  split.
  - apply (scan_with_params_probes 0x31 5 answering); lia.
  - apply (scan_with_params_probes 200 0 answering); lia.
Defined.

End ScannerAttribution.

(** ** Response classifier, continued *)

Section ClassifierShape.

Import Scan.

Lemma flag_notes_closed (response : list Z) (notes : list string) :
  flag_notes response notes
    = notes ++ map (flag_note response) (flag_offsets response).
Proof.
  unfold flag_notes, flag_offsets.
  generalize (Py.range 0 (Py.len response - 5)). intros offsets.
  revert notes. induction offsets as [|i rest IH]; intros notes.
  - simpl. now rewrite app_nil_r.
  - cbn [fold_left filter]. rewrite IH. unfold binary_window at 2.
    destruct (forallb (fun b => Py.mem b [0; 1]) (Py.slice response i (i + 6))).
    + rewrite <- app_assoc. reflexivity.
    + reflexivity.
Qed.

(** X16.  [analyze_response] gives no notes for an empty response.
    Otherwise its notes are, in this order: one note on the command byte
    when the response has at least four bytes (tagged req-1 when that byte
    is the request minus one, echo when it equals the request, untagged
    otherwise); one flag note for every offset whose six-byte window holds
    only 0 and 1, in increasing offset order, overlapping windows
    included; and at most one ASCII note, listing every maximal printable
    run of length four or more. *)
Theorem analyze_response_notes (c : Z) (response : list Z) :
  analyze_response c response
    = match response with
      | [] => []
      | _ =>
          (if 3 <? Py.len response
           then [cmd_note c (byte_at response 3)] else [])
          ++ map (flag_note response) (flag_offsets response)
          ++ match text_runs response with
             | [] => []
             | runs => ["ASCII: " ^^ Py.repr_strs runs]
             end
      end.
Proof.
  unfold analyze_response.
  destruct response as [|b rest]; [reflexivity|].
  set (response := b :: rest).
  rewrite flag_notes_closed.
  assert (Hcmd :
    (if 3 <? Py.len response
     then
       if nth 3 response 0 =? c - 1
       then [] ++ ["resp_cmd=0x" ^^ Py.fmt_02X (nth 3 response 0) ^^ " (req-1)"]
       else if nth 3 response 0 =? c
            then [] ++ ["resp_cmd=0x" ^^ Py.fmt_02X (nth 3 response 0)
                        ^^ " (echo)"]
            else [] ++ ["resp_cmd=0x" ^^ Py.fmt_02X (nth 3 response 0)]
     else [])
    = (if 3 <? Py.len response
       then [cmd_note c (byte_at response 3)] else [])).
  { destruct (3 <? Py.len response); [|reflexivity].
    unfold cmd_note, byte_at. change (Z.to_nat 3) with 3%nat.
    destruct (nth 3 response 0 =? c - 1); [reflexivity|].
    destruct (nth 3 response 0 =? c); reflexivity. }
  rewrite Hcmd.
  destruct (4 <=? Py.len (ascii_chars response)) eqn:E.
  - rewrite ascii_runs_refines.
    destruct (text_runs response);
      now rewrite <- ?app_assoc, ?app_nil_r.
  - rewrite (few_printables _ E). now rewrite !app_nil_r.
Qed.

Lemma Forall_take (P : Z -> Prop) (n : nat) :
  forall l, Forall P l -> Forall P (firstn n l).
Proof.
  induction n as [|n IH]; intros l H; [constructor|].
  destruct H as [|x l Hx Hl]; simpl; [constructor|].
  constructor; [exact Hx | now apply IH].
Qed.

Lemma Forall_drop (P : Z -> Prop) (n : nat) :
  forall l, Forall P l -> Forall P (skipn n l).
Proof.
  induction n as [|n IH]; intros l H; [exact H|].
  destruct H as [|x l Hx Hl]; simpl; [constructor | now apply IH].
Qed.

Lemma Forall_slice (P : Z -> Prop) (l : list Z) (a b : Z) :
  Forall P l -> Forall P (Py.slice l a b).
Proof.
  intros H. unfold Py.slice. now apply Forall_take, Forall_drop.
Qed.

Lemma binary_everywhere (response : list Z) :
  Forall (fun b => b = 0 \/ b = 1) response ->
  flag_offsets response = Py.range 0 (Py.len response - 5).
Proof.
  intros H. unfold flag_offsets.
  generalize (Py.range 0 (Py.len response - 5)). intros offsets.
  induction offsets as [|i rest IH]; [reflexivity|].
  simpl. rewrite IH.
  replace (binary_window response i) with true; [reflexivity|].
  symmetry. unfold binary_window. apply forallb_forall. intros x Hx.
  pose proof (Forall_slice _ response i (i + 6) H) as Hs.
  rewrite Forall_forall in Hs. destruct (Hs x Hx) as [-> | ->]; reflexivity.
Qed.

Lemma filter_flag_notes (response : list Z) (offsets : list Z) :
  filter is_flag_note (map (flag_note response) offsets)
    = map (flag_note response) offsets.
Proof.
  induction offsets as [|i rest IH]; [reflexivity|].
  cbn [map filter]. rewrite IH.
  unfold is_flag_note at 1, flag_note at 1. now rewrite prefix_append.
Qed.

Lemma flag_notes_of_analysis (c : Z) (response : list Z) :
  filter is_flag_note (analyze_response c response)
    = map (flag_note response) (flag_offsets response).
Proof.
  rewrite analyze_response_notes.
  destruct response as [|b rest]; [reflexivity|].
  set (response := b :: rest).
  rewrite !filter_app, filter_flag_notes.
  assert (Hascii : forall x, is_flag_note ("ASCII: " ^^ x) = false)
    by reflexivity.
  assert (Hcmd : filter is_flag_note
                   (if 3 <? Py.len response
                    then [cmd_note c (byte_at response 3)] else []) = []).
  { destruct (3 <? Py.len response); [|reflexivity].
    unfold cmd_note.
    destruct (byte_at response 3 =? c - 1); [reflexivity|].
    destruct (byte_at response 3 =? c); reflexivity. }
  rewrite Hcmd.
  destruct (text_runs response) as [|r rs]; cbn [filter];
    rewrite ?Hascii; cbn [app]; now rewrite app_nil_r.
Qed.

(** X17.  A response of fewer than six bytes never gets a flag note.  A
    response of [n >= 6] bytes that are all 0 or 1 gets [n - 5] flag
    notes, one for every window position: overlapping windows are all
    reported. *)
Theorem flag_notes_count (c : Z) (response : list Z) :
  (Py.len response < 6 ->
     filter is_flag_note (analyze_response c response) = [])
  /\ (6 <= Py.len response ->
      Forall (fun b => b = 0 \/ b = 1) response ->
      List.length (filter is_flag_note (analyze_response c response))
        = Z.to_nat (Py.len response - 5)).
Proof.
  rewrite flag_notes_of_analysis. split.
  - intros H. unfold flag_offsets, Py.range.
    replace (Z.to_nat (Py.len response - 5 - 0)) with O by lia. reflexivity.
  - intros Hlen Hbin. rewrite (binary_everywhere _ Hbin).
    unfold Py.range. rewrite !length_map, length_seq. f_equal. lia.
Qed.

Lemma flag_notes_count_witness :
  filter is_flag_note (analyze_response 0x29 [0; 1; 0; 1; 0]) = []
  /\ List.length (filter is_flag_note
                    (analyze_response 0x29 [0; 1; 1; 0; 0; 0; 1; 0]))
     = Z.to_nat (Py.len [0; 1; 1; 0; 0; 0; 1; 0] - 5).
Proof.
  split.
  - apply (flag_notes_count 0x29 [0; 1; 0; 1; 0]).
    unfold Py.len. simpl. lia.
  - apply (flag_notes_count 0x29 [0; 1; 1; 0; 0; 0; 1; 0]).
    + unfold Py.len. simpl. lia.
    + repeat constructor; tauto.
Defined.

End ClassifierShape.

(** ** Hex dumps and the patch report *)

Section Reports.

Lemma string_length_append (s t : string) :
  String.length (s ^^ t) = (String.length s + String.length t)%nat.
Proof. induction s as [|c s IH]; simpl; [reflexivity | now rewrite IH]. Qed.

Lemma fmt_02X_byte (b : Z) :
  0 <= b < 256 -> two_hex_digits (Py.fmt_02X b) = true.
Proof.
  intros Hb.
  assert (Hall : forallb (fun k => two_hex_digits (Py.fmt_02X (Z.of_nat k)))
                         (seq 0 256) = true) by (vm_compute; reflexivity).
  rewrite forallb_forall in Hall.
  specialize (Hall (Z.to_nat b)). rewrite Z2Nat.id in Hall by lia.
  apply Hall. apply in_seq. lia.
Qed.

Lemma two_hex_digits_length (s : string) :
  two_hex_digits s = true -> String.length s = 2%nat.
Proof.
  destruct s as [|a [|b [|c s]]]; simpl; try discriminate. reflexivity.
Qed.

(** X18.  In a hex dump every byte (0..255) appears as exactly two
    upper-case hexadecimal digits and neighbours are one space apart, so
    the dump of [n >= 1] bytes is [3n - 1] characters long and the dump of
    no bytes is empty. *)
Theorem format_hex_width (data : list Z) :
  all_bytes data ->
  Forall (fun b => two_hex_digits (Py.fmt_02X b) = true) data
  /\ String.length (format_hex data) = (3 * List.length data - 1)%nat.
Proof.
  intros H. unfold all_bytes in H.
  assert (Hd : Forall (fun b => two_hex_digits (Py.fmt_02X b) = true) data).
  { eapply Forall_impl; [|exact H]. intros b Hb. now apply fmt_02X_byte. }
  split; [exact Hd|].
  unfold format_hex, Py.join.
  induction Hd as [|b rest Hb Hrest IH]; [reflexivity|].
  assert (IH' := IH ltac:(now inversion H)).
  apply two_hex_digits_length in Hb.
  destruct rest as [|b' rest'].
  - simpl. rewrite Hb. reflexivity.
  - change (String.concat " " (map Py.fmt_02X (b :: b' :: rest')))
      with (Py.fmt_02X b ^^ " "
            ^^ String.concat " " (map Py.fmt_02X (b' :: rest'))).
    rewrite !string_length_append, Hb, IH'. simpl. lia.
Qed.

Lemma format_hex_width_witness :
  Forall (fun b => two_hex_digits (Py.fmt_02X b) = true) [0x52; 0x00; 0x59; 0xFF]
  /\ String.length (format_hex [0x52; 0x00; 0x59; 0xFF])
     = (3 * List.length [0x52; 0x00; 0x59; 0xFF] - 1)%nat.
Proof.
  apply (format_hex_width [0x52; 0x00; 0x59; 0xFF]).
  apply all_bytes_check. reflexivity.
Defined.

Lemma only_prints_print (line : string) : only_prints 1 (print line).
Proof. intros w. exists [line]. split; reflexivity. Qed.

Lemma only_prints_ret : only_prints 0 (ret tt).
Proof.
  intros w. exists []. split; [|reflexivity].
  unfold ret. simpl. rewrite app_nil_r. now destruct w.
Qed.

Lemma only_prints_then (n1 n2 : nat) (m1 m2 : M unit) :
  only_prints n1 m1 -> only_prints n2 m2 ->
  only_prints (n1 + n2) (bind m1 (fun _ => m2)).
Proof.
  intros H1 H2 w. destruct (H1 w) as (l1 & E1 & L1).
  destruct (H2 (mkWorld (trace w ++ map EPrint l1) (inbox w)))
    as (l2 & E2 & L2).
  exists (l1 ++ l2). unfold bind. rewrite E1, E2. simpl. split.
  - now rewrite map_app, app_assoc.
  - rewrite length_app. lia.
Qed.

Lemma print_slot_full (data : list Z) (i : Z) :
  long_enough data -> 0 <= i < 6 ->
  only_prints 2 (print_slot (full_slot data i) tt).
Proof.
  intros Hlen Hi. unfold print_slot.
  assert (Hraw : exists x xs, raw_bytes (full_slot data i) = x :: xs).
  { unfold full_slot. cbn [raw_bytes].
    destruct (Py.slice data (5 + 14 * i) (5 + 14 * i + 14)) as [|x xs] eqn:E.
    - apply (f_equal (@List.length Z)) in E.
      unfold long_enough in Hlen. rewrite slice_length in E by lia.
      simpl in E. lia.
    - now exists x, xs. }
  destruct Hraw as (x & xs & Hraw). rewrite Hraw.
  intros w. unfold bind at 1.
  rewrite getitem_ok by (unfold full_slot, Py.len; simpl; lia).
  apply (only_prints_then 1 1); apply only_prints_print.
Qed.

Lemma print_slots_full (data : list Z) (slots : list Z) :
  long_enough data -> Forall (fun i => 0 <= i < 6) slots ->
  only_prints (2 * List.length slots)
              (for_each (map (full_slot data) slots) print_slot tt).
Proof.
  intros Hlen Hs. induction Hs as [|i rest Hi Hrest IH].
  - apply only_prints_ret.
  - cbn [map for_each List.length].
    replace (2 * S (List.length rest))%nat
      with (2 + 2 * List.length rest)%nat by lia.
    intros w. destruct (print_slot_full data i Hlen Hi w) as (l1 & E1 & L1).
    destruct (IH (mkWorld (trace w ++ map EPrint l1) (inbox w)))
      as (l2 & E2 & L2).
    exists (l1 ++ l2). unfold bind. rewrite E1, E2. simpl. split.
    + now rewrite map_app, app_assoc.
    + rewrite length_app. lia.
Qed.

(** X19.  [print_patch_info] never fails on a patch returned by
    [parse_patch_data] (the second knob value it reads is always there):
    it makes exactly 22 calls of [print] (seven for the header, two per
    slot, the closing rule and two for the name bytes) and touches neither
    the ports nor the pending input. *)
Theorem print_patch_info_after_parse
    (data : list Z) (w w' : World) (p : PatchData) :
  parse_patch_data data w = (Ok (Some p), w') ->
  exists lines,
    print_patch_info p w'
      = (Ok tt, mkWorld (trace w' ++ map EPrint lines) (inbox w'))
    /\ List.length lines = 22%nat.
Proof.
  intros H. apply parse_success_inv in H.
  destruct H as (-> & _ & Hlen & _).
  assert (Hp : only_prints 22 (print_patch_info (full_patch data))).
  { unfold print_patch_info.
    apply (only_prints_then 1 21); [apply only_prints_print|].
    apply (only_prints_then 1 20); [apply only_prints_print|].
    apply (only_prints_then 1 19); [apply only_prints_print|].
    apply (only_prints_then 1 18); [apply only_prints_print|].
    apply (only_prints_then 1 17); [apply only_prints_print|].
    apply (only_prints_then 1 16); [apply only_prints_print|].
    apply (only_prints_then 1 15); [apply only_prints_print|].
    apply (only_prints_then 12 3).
    { apply (print_slots_full data [0; 1; 2; 3; 4; 5] Hlen).
      repeat constructor; lia. }
    apply (only_prints_then 1 2); [apply only_prints_print|].
    cbn [raw_data full_patch].
    rewrite ltb_true by (unfold long_enough in Hlen; unfold PATCH_NAME_OFFSET; lia).
    apply (only_prints_then 1 1); apply only_prints_print. }
  apply Hp.
Qed.

Lemma print_patch_info_after_parse_witness :
  exists lines,
    print_patch_info (full_patch sample_dump) idle
      = (Ok tt, mkWorld (trace idle ++ map EPrint lines) (inbox idle))
    /\ List.length lines = 22%nat.
Proof.
  apply (print_patch_info_after_parse sample_dump idle idle). reflexivity.
Defined.

End Reports.

Section PatchNameText.

Lemma name_loop_closed (name_bytes : list Z) :
  forall acc,
  name_loop name_bytes acc
    = acc ++ map Py.chr (filter printable (until_zero name_bytes)).
Proof.
  induction name_bytes as [|b rest IH]; intros acc; simpl.
  - now rewrite app_nil_r.
  - destruct (b =? 0); [now rewrite app_nil_r|].
    simpl. unfold printable at 1.
    destruct ((32 <=? b) && (b <? 127)).
    + rewrite IH, <- app_assoc. reflexivity.
    + apply IH.
Qed.

(** X20.  For a frame of more than 107 bytes the patch name is the text of
    the eleven bytes at offsets 96..106 cut at the first zero byte, with
    every unprintable byte in front of it dropped (not replaced) and the
    result stripped of surrounding white space; bytes after the first zero
    have no influence. *)
Theorem patch_name_text (data : list Z) (w w' : World) (p : PatchData) :
  parse_patch_data data w = (Ok (Some p), w') ->
  107 < Py.len data ->
  List.length (Py.slice data 96 107) = 11%nat
  /\ patch_name p
     = Py.strip (Py.string_of_chars
                   (map Py.chr
                        (filter printable
                                (until_zero (Py.slice data 96 107))))).
Proof.
  intros H Hlen. apply parse_success_inv in H. destruct H as (-> & _).
  split.
  - rewrite slice_length by lia. reflexivity.
  - unfold full_patch, name_of. cbn [patch_name].
    rewrite ltb_true by exact Hlen.
    now rewrite name_loop_closed.
Qed.

Lemma patch_name_text_witness :
  List.length (Py.slice sample_dump 96 107) = 11%nat
  /\ patch_name (full_patch sample_dump)
     = Py.strip (Py.string_of_chars
                   (map Py.chr
                        (filter printable
                                (until_zero (Py.slice sample_dump 96 107))))).
Proof.
  apply (patch_name_text sample_dump idle idle).
  - reflexivity.
  - unfold Py.len. simpl. lia.
Defined.

Example name_cut_at_zero :
  name_loop [32; 72; 105; 7; 33; 0; 88; 89] [] = [" "; "H"; "i"; "!"]%char.
Proof. reflexivity. Qed.

End PatchNameText.
